(** * Shape bookkeeping of the U-Net builder [g_unet]

    Source: [src/architectures/g_unet.py].  The module wires Keras layers into
    an encoder/decoder graph with skip connections.  The builder is embedded
    as a program in a small state-and-exception monad over the interpreter
    state it touches (the [KERAS_2] module constant, the backend's global
    image dimension ordering, standard output and the layer objects created
    so far); tensors are the symbolic terms Keras builds when a layer is
    called. *)

From Stdlib Require Import ZArith List Ascii String Bool Lia QArith Reals Lra.
Import ListNotations.
Open Scope string_scope.
Open Scope Z_scope.

(** ** Layers and symbolic tensors *)

(** The two values of [border_mode] / [padding] the module passes. *)
Inductive border_mode := same | valid.

(** Layer objects, with the constructor arguments the module supplies.
    Keras 1 and Keras 2 name the arguments of [Convolution2D] differently
    ([border_mode]/[subsample] against [padding]/[strides]); the values are
    the same, and the last field is the data layout the layer reads from the
    backend when it is created. *)
Inductive layer :=
| InputLayer (shape : list Z)
| Convolution2D (filters : Z) (kernel_size : Z * Z) (padding : border_mode)
    (strides : Z * Z) (data_format : string)
| Conv2DTranspose (filters : Z) (kernel_size : Z * Z) (padding : border_mode)
    (strides : Z * Z) (data_format : string)
| Deconvolution2D (nb_filter nb_row nb_col : Z) (output_shape : list Z)
    (border : border_mode) (subsample : Z * Z) (dim_ordering : string)
| BatchNormalization (mode : option Z) (axis : Z)
| LeakyReLU (alpha : Q)
| Dropout (rate : Q)
| Activation (activation : string)
| Concatenate (axis : Z)
| Merge (mode : string) (concat_axis : Z).

(** A symbolic tensor is the history that produced it: the placeholder made
    by [Input(shape=...)] (batch axis left open), or the call of a layer on a
    list of tensors. *)
#[warnings="-register-all"]
Inductive tensor :=
| Placeholder (shape : list Z)
| Call (l : layer) (inputs : list tensor).

(** [Model(i, out, name=name)]. *)
Record Model := mkModel {
  model_input : tensor;
  model_output : tensor;
  model_name : string
}.

(** ** Interpreter state and the builder monad *)

Inductive exn :=
| ValueError (msg : string)
| AssertionError (msg : string).

Inductive result (A : Type) :=
| Ok (a : A)
| Raise (e : exn).
Arguments Ok {A} a.
Arguments Raise {A} e.

(** What the builder reads and writes: the module constant [KERAS_2], the
    backend's image dimension ordering (set by
    [K.set_image_dim_ordering]), the lines printed, and the layer objects
    constructed, oldest first. *)
Record world := mkWorld {
  KERAS_2 : bool;
  dim_ordering_ : string;
  stdout : list string;
  layers : list layer
}.

Definition M (A : Type) : Type := world -> result A * world.

Definition ret {A} (a : A) : M A := fun w => (Ok a, w).

Definition bind {A B} (m : M A) (k : A -> M B) : M B :=
  fun w => match m w with
           | (Ok a, w') => k a w'
           | (Raise e, w') => (Raise e, w')
           end.

Definition raise {A} (e : exn) : M A := fun w => (Raise e, w).

Notation "x <- m ;; k" := (bind m (fun x => k))
  (at level 61, m at next level, right associativity).
Notation "' pat <- m ;; k" := (bind m (fun v => match v with pat => k end))
  (at level 61, pat pattern, m at next level, right associativity).
Notation "m ;;; k" := (bind m (fun _ => k))
  (at level 61, right associativity).

Definition print (s : string) : M unit :=
  fun w => (Ok tt, mkWorld (KERAS_2 w) (dim_ordering_ w) (stdout w ++ [s]) (layers w)).

(** Creating a layer object. *)
Definition new_layer (l : layer) : M layer :=
  fun w => (Ok l, mkWorld (KERAS_2 w) (dim_ordering_ w) (stdout w) (layers w ++ [l])).

Definition get_KERAS_2 : M bool := fun w => (Ok (KERAS_2 w), w).

Definition set_KERAS_2 (b : bool) : M unit :=
  fun w => (Ok tt, mkWorld b (dim_ordering_ w) (stdout w) (layers w)).

Definition py_assert (c : bool) (msg : string) : M unit :=
  if c then ret tt else raise (AssertionError msg).

(** [for z in range(n): x = body(x)]; [range] of a negative number is empty. *)
Fixpoint for_loop {A} (n : nat) (body : A -> M A) (x : A) : M A :=
  match n with
  | O => ret x
  | S n' => x' <- body x ;; for_loop n' body x'
  end.

Definition for_range {A} (n : Z) (body : A -> M A) (x : A) : M A :=
  for_loop (Z.to_nat n) body x.

(** ** The Keras backend [K] *)

Module K.

(** [K.set_image_dim_ordering(o)]. *)
Definition set_image_dim_ordering (o : string) : M unit :=
  fun w => (Ok tt, mkWorld (KERAS_2 w) o (stdout w) (layers w)).

(** [K.image_dim_ordering()]. *)
Definition image_dim_ordering : M string := fun w => (Ok (dim_ordering_ w), w).

(** [K.image_data_format()]: the Keras 2 name of the same setting. *)
Definition data_format_of (o : string) : string :=
  if String.eqb o "th" then "channels_first"
  else if String.eqb o "tf" then "channels_last"
  else o.

Definition image_data_format : M string :=
  fun w => (Ok (data_format_of (dim_ordering_ w)), w).

End K.

(** ** Module level *)

(** The statements run when the module is imported: [KERAS_2] is whether the
    first character of [keras.__version__] is ['2'], reset to [False] when
    the Keras 2 layers cannot be imported; then the ordering is set. *)
Definition first_char_is_2 (version : string) : bool :=
  match version with
  | String c _ => Ascii.eqb c "2"%char
  | EmptyString => false
  end.

Definition module_import (version : string) (keras2_layers_importable : bool)
  : M unit :=
  set_KERAS_2 (first_char_is_2 version) ;;;
  (if keras2_layers_importable then ret tt
   else print "Keras 2 layers could not be imported defaulting to keras1" ;;;
        set_KERAS_2 false) ;;;
  K.set_image_dim_ordering "th".

(** ** The wrappers *)

(** Calling a layer object on tensors yields the tensor recording the call.
    The checks Keras itself makes when a layer is created or called (a
    positive filter count, inputs a merge accepts, a non-empty model name)
    are not part of this model: what is proved of a graph is proved of the
    graph of a call Keras accepts. *)
Definition call (l : layer) (xs : list tensor) : tensor := Call l xs.

Definition Input (shape : list Z) : M tensor :=
  _ <- new_layer (InputLayer shape) ;; ret (Placeholder shape).

Definition concatenate_layers (inputs : list tensor) (concat_axis : Z)
  (mode : string) : M tensor :=
  k2 <- get_KERAS_2 ;;
  if k2 then
    py_assert (String.eqb mode "concat") "Only concatenation is supported in this wrapper" ;;;
    l <- new_layer (Concatenate concat_axis) ;;
    ret (call l inputs)
  else
    l <- new_layer (Merge mode concat_axis) ;;
    ret (call l inputs).

(** [Convolution(f, k=3, s=2, border_mode='same')]; the layer takes its data
    layout from the backend. *)
Definition Convolution (f k s : Z) (bm : border_mode) : M layer :=
  k2 <- get_KERAS_2 ;;
  if k2 then
    fmt <- K.image_data_format ;;
    new_layer (Convolution2D f (k, k) bm (s, s) fmt)
  else
    o <- K.image_dim_ordering ;;
    new_layer (Convolution2D f (k, k) bm (s, s) o).

(** [Deconvolution(f, output_shape, k=2, s=2)]; neither branch passes a
    padding, so both layers keep Keras's default ['valid']. *)
Definition Deconvolution (f : Z) (output_shape : list Z) (k s : Z) : M layer :=
  k2 <- get_KERAS_2 ;;
  if k2 then
    fmt <- K.image_data_format ;;
    new_layer (Conv2DTranspose f (k, k) valid (s, s) fmt)
  else
    o <- K.image_dim_ordering ;;
    new_layer (Deconvolution2D f k k output_shape valid (s, s) o).

(** [BatchNorm(mode=2, axis=1)]. *)
Definition BatchNorm (mode axis : Z) : M layer :=
  k2 <- get_KERAS_2 ;;
  if k2 then new_layer (BatchNormalization None axis)
  else new_layer (BatchNormalization (Some 2) axis).

(** The dictionary [merge_params]. *)
Record merge_params_t := mkMergeParams {
  mp_mode : string;
  mp_concat_axis : Z
}.

(** [L(...)(x)]: create the layer, then call it on [x]. *)
Definition on (ml : M layer) (x : tensor) : M tensor :=
  l <- ml ;; ret (call l [x]).
Infix "@@" := on (at level 40, left associativity).

(** ** The builder *)

(** The local variables of [g_unet] when it returns. *)
Record frame := mkFrame {
  i : tensor;
  conv1 : tensor; conv2 : tensor; conv3 : tensor;
  conv4 : tensor; conv5 : tensor; conv6 : tensor;
  conv7 : tensor; conv8 : tensor; conv9 : tensor;
  dconv1 : tensor; dconv2 : tensor; dconv3 : tensor;
  dconv4 : tensor; dconv5 : tensor; dconv6 : tensor;
  dconv7 : tensor; dconv8 : tensor; dconv9 : tensor;
  x : tensor;
  act : string;
  out : tensor;
  unet : Model
}.

(** The nested function [padded_conv(nf, x)], closed over
    [num_padded_conv]. *)
Definition padded_conv (num_padded_conv : Z) (nf : Z) (x : tensor) : M tensor :=
  for_range num_padded_conv
    (fun x =>
       x <- Convolution nf 3 1 same @@ x ;;
       x <- BatchNorm 2 1 @@ x ;;
       x <- new_layer (LeakyReLU 0.2) @@ x ;;
       ret x)
    x.

(** The dispatch on the image dimension ordering: the input placeholder,
    [get_deconv_shape] and the updated [merge_params]. *)
Definition dim_ordering_dispatch (in_ch : Z) (merge_params : merge_params_t)
  : M (tensor * (Z -> Z -> Z -> Z -> list Z) * merge_params_t) :=
  o <- K.image_dim_ordering ;;
  if String.eqb o "th" then
    print "TheanoShapedU-NET" ;;;
    i <- Input [in_ch; 512; 512] ;;
    ret (i, (fun samples channels x_dim y_dim => [samples; channels; x_dim; y_dim]),
         merge_params)
  else
    o <- K.image_dim_ordering ;;
    if String.eqb o "tf" then
      i <- Input [512; 512; in_ch] ;;
      print "TensorflowShapedU-NET" ;;;
      ret (i, (fun samples channels x_dim y_dim => [samples; x_dim; y_dim; channels]),
           mkMergeParams (mp_mode merge_params) 3)
    else
      o <- K.image_dim_ordering ;;
      raise (ValueError ("Keras dimension ordering not supported: " ++ o)).

(** The body of [g_unet], statement by statement, returning its frame. *)
Definition g_unet_frame (in_ch out_ch nf batch_size : Z) (is_binary : bool)
  (num_padded_conv : Z) (name : string) : M frame :=
  let merge_params := mkMergeParams "concat" 1 in
  '(i, get_deconv_shape, merge_params) <- dim_ordering_dispatch in_ch merge_params ;;
  let padded_conv := padded_conv num_padded_conv in
  let concat inputs :=
    concatenate_layers inputs (mp_concat_axis merge_params) (mp_mode merge_params) in

  conv1 <- Convolution nf 3 2 same @@ i ;;
  conv1 <- BatchNorm 2 1 @@ conv1 ;;
  conv1 <- new_layer (LeakyReLU 0.2) @@ conv1 ;;
  conv1 <- padded_conv nf conv1 ;;
  let x := conv1 in

  conv2 <- Convolution (nf * 2) 3 2 same @@ x ;;
  conv2 <- BatchNorm 2 1 @@ conv2 ;;
  conv2 <- new_layer (LeakyReLU 0.2) @@ conv2 ;;
  conv2 <- padded_conv (nf * 2) conv2 ;;
  let x := conv2 in

  conv3 <- Convolution (nf * 4) 3 2 same @@ x ;;
  conv3 <- BatchNorm 2 1 @@ conv3 ;;
  conv3 <- new_layer (LeakyReLU 0.2) @@ conv3 ;;
  conv3 <- padded_conv (nf * 4) conv3 ;;
  let x := conv3 in

  conv4 <- Convolution (nf * 8) 3 2 same @@ x ;;
  conv4 <- BatchNorm 2 1 @@ conv4 ;;
  conv4 <- new_layer (LeakyReLU 0.2) @@ conv4 ;;
  conv4 <- padded_conv (nf * 8) conv4 ;;
  let x := conv4 in

  conv5 <- Convolution (nf * 8) 3 2 same @@ x ;;
  conv5 <- BatchNorm 2 1 @@ conv5 ;;
  conv5 <- new_layer (LeakyReLU 0.2) @@ conv5 ;;
  conv5 <- padded_conv (nf * 8) conv5 ;;
  let x := conv5 in

  conv6 <- Convolution (nf * 8) 3 2 same @@ x ;;
  conv6 <- BatchNorm 2 1 @@ conv6 ;;
  conv6 <- new_layer (LeakyReLU 0.2) @@ conv6 ;;
  conv6 <- padded_conv (nf * 8) conv6 ;;
  let x := conv6 in

  conv7 <- Convolution (nf * 8) 3 2 same @@ x ;;
  conv7 <- BatchNorm 2 1 @@ conv7 ;;
  conv7 <- new_layer (LeakyReLU 0.2) @@ conv7 ;;
  conv7 <- padded_conv (nf * 8) conv7 ;;
  let x := conv7 in

  conv8 <- Convolution (nf * 8) 3 2 same @@ x ;;
  conv8 <- BatchNorm 2 1 @@ conv8 ;;
  conv8 <- new_layer (LeakyReLU 0.2) @@ conv8 ;;
  conv8 <- padded_conv (nf * 8) conv8 ;;
  let x := conv8 in

  conv9 <- Convolution (nf * 8) 2 1 valid @@ x ;;
  conv9 <- BatchNorm 2 1 @@ conv9 ;;
  x <- new_layer (LeakyReLU 0.2) @@ conv9 ;;

  dconv1 <- Deconvolution (nf * 8) (get_deconv_shape batch_size (nf * 8) 2 2) 2 1 @@ x ;;
  dconv1 <- BatchNorm 2 1 @@ dconv1 ;;
  dconv1 <- new_layer (Dropout 0.5) @@ dconv1 ;;
  x <- concat [dconv1; conv8] ;;
  x <- new_layer (LeakyReLU 0.2) @@ x ;;
  x <- padded_conv (nf * 8) x ;;

  dconv2 <- Deconvolution (nf * 8) (get_deconv_shape batch_size (nf * 8) 4 4) 2 2 @@ x ;;
  dconv2 <- BatchNorm 2 1 @@ dconv2 ;;
  dconv2 <- new_layer (Dropout 0.5) @@ dconv2 ;;
  x <- concat [dconv2; conv7] ;;
  x <- new_layer (LeakyReLU 0.2) @@ x ;;
  x <- padded_conv (nf * 8) x ;;

  dconv3 <- Deconvolution (nf * 8) (get_deconv_shape batch_size (nf * 8) 8 8) 2 2 @@ x ;;
  dconv3 <- BatchNorm 2 1 @@ dconv3 ;;
  dconv3 <- new_layer (Dropout 0.5) @@ dconv3 ;;
  x <- concat [dconv3; conv6] ;;
  x <- new_layer (LeakyReLU 0.2) @@ x ;;
  x <- padded_conv (nf * 8) x ;;

  dconv4 <- Deconvolution (nf * 8) (get_deconv_shape batch_size (nf * 8) 16 16) 2 2 @@ x ;;
  dconv4 <- BatchNorm 2 1 @@ dconv4 ;;
  x <- concat [dconv4; conv5] ;;
  x <- new_layer (LeakyReLU 0.2) @@ x ;;
  x <- padded_conv (nf * 8) x ;;

  dconv5 <- Deconvolution (nf * 8) (get_deconv_shape batch_size (nf * 8) 32 32) 2 2 @@ x ;;
  dconv5 <- BatchNorm 2 1 @@ dconv5 ;;
  x <- concat [dconv5; conv4] ;;
  x <- new_layer (LeakyReLU 0.2) @@ x ;;
  x <- padded_conv (nf * 8) x ;;

  dconv6 <- Deconvolution (nf * 4) (get_deconv_shape batch_size (nf * 4) 64 64) 2 2 @@ x ;;
  dconv6 <- BatchNorm 2 1 @@ dconv6 ;;
  x <- concat [dconv6; conv3] ;;
  x <- new_layer (LeakyReLU 0.2) @@ x ;;
  x <- padded_conv (nf * 4) x ;;

  dconv7 <- Deconvolution (nf * 2) (get_deconv_shape batch_size (nf * 2) 128 128) 2 2 @@ x ;;
  dconv7 <- BatchNorm 2 1 @@ dconv7 ;;
  x <- concat [dconv7; conv2] ;;
  x <- new_layer (LeakyReLU 0.2) @@ x ;;
  x <- padded_conv (nf * 2) x ;;

  dconv8 <- Deconvolution nf (get_deconv_shape batch_size nf 256 256) 2 2 @@ x ;;
  dconv8 <- BatchNorm 2 1 @@ dconv8 ;;
  x <- concat [dconv8; conv1] ;;
  x <- new_layer (LeakyReLU 0.2) @@ x ;;
  x <- padded_conv nf x ;;

  dconv9 <- Deconvolution out_ch (get_deconv_shape batch_size out_ch 512 512) 2 2 @@ x ;;

  let act := if is_binary then "sigmoid" else "tanh" in
  out <- new_layer (Activation act) @@ dconv9 ;;

  let unet := mkModel i out name in
  ret (mkFrame i conv1 conv2 conv3 conv4 conv5 conv6 conv7 conv8 conv9
         dconv1 dconv2 dconv3 dconv4 dconv5 dconv6 dconv7 dconv8 dconv9
         x act out unet).

(** [g_unet(in_ch, out_ch, nf, batch_size, is_binary, num_padded_conv, name)]. *)
Definition g_unet (in_ch out_ch nf batch_size : Z) (is_binary : bool)
  (num_padded_conv : Z) (name : string) : M Model :=
  f <- g_unet_frame in_ch out_ch nf batch_size is_binary num_padded_conv name ;;
  ret (unet f).

(** ** Shape rules of the framework's layers

    Keras is an external collaborator of the module; these are the output
    shapes of its layers, as its [conv_output_length] and [deconv_length]
    utilities and the layers' [compute_output_shape] methods give them.
    Shapes are tuples with the batch entry first. *)

Module Keras.

(** Whether a layout string puts the channel axis first: ['th'] and
    ['channels_first'] do, ['tf'] and ['channels_last'] do not. *)
Definition channels_first (fmt : string) : option bool :=
  if String.eqb fmt "th" then Some true
  else if String.eqb fmt "channels_first" then Some true
  else if String.eqb fmt "tf" then Some false
  else if String.eqb fmt "channels_last" then Some false
  else None.

Definition conv_output_length (input_length filter_size : Z)
  (bm : border_mode) (stride : Z) : Z :=
  let output_length :=
    match bm with
    | same => input_length
    | valid => input_length - filter_size + 1
    end in
  (output_length + stride - 1) / stride.

Definition deconv_length (dim_size stride_size kernel_size : Z)
  (bm : border_mode) : Z :=
  let dim_size := dim_size * stride_size in
  match bm with
  | valid => dim_size + Z.max (kernel_size - stride_size) 0
  | same => dim_size
  end.

Fixpoint shape_eqb (a b : list Z) : bool :=
  match a, b with
  | [], [] => true
  | da :: a', db :: b' => Z.eqb da db && shape_eqb a' b'
  | _, _ => false
  end.

(** Concatenation along [axis]: the other entries must agree. *)
Fixpoint concat2 (axis : nat) (a b : list Z) : option (list Z) :=
  match a, b with
  | [], [] => None
  | da :: a', db :: b' =>
      match axis with
      | O => if shape_eqb a' b' then Some ((da + db) :: a') else None
      | S axis' =>
          if Z.eqb da db then
            match concat2 axis' a' b' with
            | Some r => Some (da :: r)
            | None => None
            end
          else None
      end
  | _, _ => None
  end.

Fixpoint concat_all (axis : nat) (acc : list Z) (rest : list (list Z))
  : option (list Z) :=
  match rest with
  | [] => Some acc
  | s :: rest' =>
      match concat2 axis acc s with
      | Some acc' => concat_all axis acc' rest'
      | None => None
      end
  end.

Definition concat_shape (axis : Z) (shapes : list (list Z)) : option (list Z) :=
  match shapes with
  | s1 :: (_ :: _) as rest =>
      if Z.ltb axis 0 then None else concat_all (Z.to_nat axis) s1 rest
  | _ => None
  end.

(** The shape a layer gives on inputs of the given shapes; [None] where
    the layer rejects them.  Keras 1's [Deconvolution2D] reports the rows
    and columns of the [output_shape] it was created with, together with
    the batch entry of its input and its own filter count. *)
Definition compute_output_shape (l : layer) (ins : list (list Z))
  : option (list Z) :=
  match l, ins with
  | Convolution2D f (kr, kc) bm (sr, sc) fmt, [[b; d1; d2; d3]] =>
      match channels_first fmt with
      | Some true =>
          Some [b; f; conv_output_length d2 kr bm sr; conv_output_length d3 kc bm sc]
      | Some false =>
          Some [b; conv_output_length d1 kr bm sr; conv_output_length d2 kc bm sc; f]
      | None => None
      end
  | Conv2DTranspose f (kr, kc) bm (sr, sc) fmt, [[b; d1; d2; d3]] =>
      match channels_first fmt with
      | Some true =>
          Some [b; f; deconv_length d2 sr kr bm; deconv_length d3 sc kc bm]
      | Some false =>
          Some [b; deconv_length d1 sr kr bm; deconv_length d2 sc kc bm; f]
      | None => None
      end
  | Deconvolution2D f _ _ output_shape _ _ o, [[b; _; _; _]] =>
      match channels_first o, output_shape with
      | Some true, [_; _; rows; cols] => Some [b; f; rows; cols]
      | Some false, [_; rows; cols; _] => Some [b; rows; cols; f]
      | _, _ => None
      end
  | BatchNormalization _ _, [s] => Some s
  | LeakyReLU _, [s] => Some s
  | Dropout _, [s] => Some s
  | Activation _, [s] => Some s
  | Concatenate axis, shapes => concat_shape axis shapes
  | Merge mode axis, shapes =>
      if String.eqb mode "concat" then concat_shape axis shapes else None
  | _, _ => None
  end.

Fixpoint all_some {A} (l : list (option A)) : option (list A) :=
  match l with
  | [] => Some []
  | Some a :: l' =>
      match all_some l' with
      | Some r => Some (a :: r)
      | None => None
      end
  | None :: _ => None
  end.

(** The shape of a symbolic tensor when the placeholder is fed a batch of
    [batch] samples. *)
Fixpoint shape_of (batch : Z) (t : tensor) : option (list Z) :=
  match t with
  | Placeholder s => Some (batch :: s)
  | Call l xs =>
      match all_some (map (shape_of batch) xs) with
      | Some shapes => compute_output_shape l shapes
      | None => None
      end
  end.

(** The placeholders a tensor is computed from, one for each path down
    to a leaf. *)
Fixpoint placeholders (t : tensor) : list (list Z) :=
  match t with
  | Placeholder s => [s]
  | Call _ xs => flat_map placeholders xs
  end.

(** Whether the output of a model is computed from its input and from
    nothing else; Keras refuses a model whose graph is disconnected.
    Placeholders carry no name here and are told apart by their shape. *)
Definition connected (m : Model) : bool :=
  match model_input m with
  | Placeholder s =>
      match placeholders (model_output m) with
      | [] => false
      | ps => forallb (shape_eqb s) ps
      end
  | Call _ _ => false
  end.

(** The shape a model returns on an input of shape [input_shape]: the
    model must be connected and the input must fit the placeholder apart
    from its batch entry. *)
Definition predict_shape (m : Model) (input_shape : list Z) : option (list Z) :=
  match model_input m, input_shape with
  | Placeholder s, batch :: dims =>
      if shape_eqb dims s && connected m then shape_of batch (model_output m)
      else None
  | _, _ => None
  end.

End Keras.

(** ** The graph [g_unet] builds, as a closed description

    The layers and tensors the wrappers produce in a state whose [KERAS_2] is
    [K2] and whose ordering is [o]; the run lemmas below show that the
    builder yields exactly these. *)

Section Graph.

Variables (K2 : bool) (o : string).

Definition layout : string := if K2 then K.data_format_of o else o.

Definition conv_layer (f k s : Z) (bm : border_mode) : layer :=
  Convolution2D f (k, k) bm (s, s) layout.

Definition deconv_layer (f : Z) (output_shape : list Z) (k s : Z) : layer :=
  if K2 then Conv2DTranspose f (k, k) valid (s, s) layout
  else Deconvolution2D f k k output_shape valid (s, s) o.

Definition bn_layer : layer :=
  BatchNormalization (if K2 then None else Some 2) 1.

Definition concat_axis_of : Z := if String.eqb o "th" then 1 else 3.

Definition concat_layer : layer :=
  if K2 then Concatenate concat_axis_of else Merge "concat" concat_axis_of.

Definition deconv_shape_of (samples channels x_dim y_dim : Z) : list Z :=
  if String.eqb o "th" then [samples; channels; x_dim; y_dim]
  else [samples; x_dim; y_dim; channels].

Definition input_shape_of (in_ch : Z) : list Z :=
  if String.eqb o "th" then [in_ch; 512; 512] else [512; 512; in_ch].

Definition banner : string :=
  if String.eqb o "th" then "TheanoShapedU-NET" else "TensorflowShapedU-NET".

(** One refinement block of [padded_conv], and its three layers. *)
Definition block (f : Z) (x : tensor) : tensor :=
  Call (LeakyReLU 0.2) [Call bn_layer [Call (conv_layer f 3 1 same) [x]]].

Definition block_layers (f : Z) : list layer :=
  [conv_layer f 3 1 same; bn_layer; LeakyReLU 0.2].

Fixpoint padded (n : nat) (f : Z) (x : tensor) : tensor :=
  match n with
  | O => x
  | S n' => padded n' f (block f x)
  end.

Fixpoint padded_layers (n : nat) (f : Z) : list layer :=
  match n with
  | O => []
  | S n' => block_layers f ++ padded_layers n' f
  end.

(** An encoder stage: strided convolution, normalisation, activation, then
    the refinement blocks. *)
Definition down (n : nat) (f : Z) (x : tensor) : tensor :=
  padded n f (Call (LeakyReLU 0.2) [Call bn_layer [Call (conv_layer f 3 2 same) [x]]]).

Definition down_layers (n : nat) (f : Z) : list layer :=
  [conv_layer f 3 2 same; bn_layer; LeakyReLU 0.2] ++ padded_layers n f.

(** The upsampling half of a decoder stage. *)
Definition up (dropout : bool) (f : Z) (output_shape : list Z) (k s : Z)
  (x : tensor) : tensor :=
  let d := Call bn_layer [Call (deconv_layer f output_shape k s) [x]] in
  if dropout then Call (Dropout 0.5) [d] else d.

Definition up_layers (dropout : bool) (f : Z) (output_shape : list Z) (k s : Z)
  : list layer :=
  [deconv_layer f output_shape k s; bn_layer]
    ++ (if dropout then [Dropout 0.5] else []).

(** The skip half: concatenation with the encoder tensor, activation, then
    the refinement blocks. *)
Definition skip (n : nat) (f : Z) (d c : tensor) : tensor :=
  padded n f (Call (LeakyReLU 0.2) [Call concat_layer [d; c]]).

Definition skip_layers (n : nat) (f : Z) : list layer :=
  [concat_layer; LeakyReLU 0.2] ++ padded_layers n f.

Variables (in_ch out_ch nf batch_size : Z) (is_binary : bool)
  (num_padded_conv : Z) (name : string).

Let n := Z.to_nat num_padded_conv.
Let gds := deconv_shape_of batch_size.

Definition frame_of : frame :=
  let i := Placeholder (input_shape_of in_ch) in
  let conv1 := down n nf i in
  let conv2 := down n (nf * 2) conv1 in
  let conv3 := down n (nf * 4) conv2 in
  let conv4 := down n (nf * 8) conv3 in
  let conv5 := down n (nf * 8) conv4 in
  let conv6 := down n (nf * 8) conv5 in
  let conv7 := down n (nf * 8) conv6 in
  let conv8 := down n (nf * 8) conv7 in
  let conv9 := Call bn_layer [Call (conv_layer (nf * 8) 2 1 valid) [conv8]] in
  let x := Call (LeakyReLU 0.2) [conv9] in
  let dconv1 := up true (nf * 8) (gds (nf * 8) 2 2) 2 1 x in
  let x := skip n (nf * 8) dconv1 conv8 in
  let dconv2 := up true (nf * 8) (gds (nf * 8) 4 4) 2 2 x in
  let x := skip n (nf * 8) dconv2 conv7 in
  let dconv3 := up true (nf * 8) (gds (nf * 8) 8 8) 2 2 x in
  let x := skip n (nf * 8) dconv3 conv6 in
  let dconv4 := up false (nf * 8) (gds (nf * 8) 16 16) 2 2 x in
  let x := skip n (nf * 8) dconv4 conv5 in
  let dconv5 := up false (nf * 8) (gds (nf * 8) 32 32) 2 2 x in
  let x := skip n (nf * 8) dconv5 conv4 in
  let dconv6 := up false (nf * 4) (gds (nf * 4) 64 64) 2 2 x in
  let x := skip n (nf * 4) dconv6 conv3 in
  let dconv7 := up false (nf * 2) (gds (nf * 2) 128 128) 2 2 x in
  let x := skip n (nf * 2) dconv7 conv2 in
  let dconv8 := up false nf (gds nf 256 256) 2 2 x in
  let x := skip n nf dconv8 conv1 in
  let dconv9 := Call (deconv_layer out_ch (gds out_ch 512 512) 2 2) [x] in
  let act := if is_binary then "sigmoid" else "tanh" in
  let out := Call (Activation act) [dconv9] in
  mkFrame i conv1 conv2 conv3 conv4 conv5 conv6 conv7 conv8 conv9
    dconv1 dconv2 dconv3 dconv4 dconv5 dconv6 dconv7 dconv8 dconv9
    x act out (mkModel i out name).

(** The layer objects a call creates, in creation order: all but the
    last, then the final activation. *)
Definition body_layers_of : list layer :=
  [InputLayer (input_shape_of in_ch)]
    ++ down_layers n nf
    ++ down_layers n (nf * 2)
    ++ down_layers n (nf * 4)
    ++ down_layers n (nf * 8)
    ++ down_layers n (nf * 8)
    ++ down_layers n (nf * 8)
    ++ down_layers n (nf * 8)
    ++ down_layers n (nf * 8)
    ++ [conv_layer (nf * 8) 2 1 valid; bn_layer; LeakyReLU 0.2]
    ++ up_layers true (nf * 8) (gds (nf * 8) 2 2) 2 1 ++ skip_layers n (nf * 8)
    ++ up_layers true (nf * 8) (gds (nf * 8) 4 4) 2 2 ++ skip_layers n (nf * 8)
    ++ up_layers true (nf * 8) (gds (nf * 8) 8 8) 2 2 ++ skip_layers n (nf * 8)
    ++ up_layers false (nf * 8) (gds (nf * 8) 16 16) 2 2 ++ skip_layers n (nf * 8)
    ++ up_layers false (nf * 8) (gds (nf * 8) 32 32) 2 2 ++ skip_layers n (nf * 8)
    ++ up_layers false (nf * 4) (gds (nf * 4) 64 64) 2 2 ++ skip_layers n (nf * 4)
    ++ up_layers false (nf * 2) (gds (nf * 2) 128 128) 2 2 ++ skip_layers n (nf * 2)
    ++ up_layers false nf (gds nf 256 256) 2 2 ++ skip_layers n nf
    ++ [deconv_layer out_ch (gds out_ch 512 512) 2 2].

Definition layers_of : list layer :=
  body_layers_of ++ [Activation (if is_binary then "sigmoid" else "tanh")].

End Graph.

(** ** Reading shapes *)

(** The orderings the builder accepts. *)
Definition supported (o : string) : Prop := o = "th" \/ o = "tf".

(** The shape with [c] channels and [h] by [w] positions under ordering
    [o]. *)
Definition shape4 (o : string) (b c h w : Z) : list Z :=
  if String.eqb o "th" then [b; c; h; w] else [b; h; w; c].

(** The channel entry and the two spatial entries of a shape. *)
Definition channel_axis (o : string) : Z := if String.eqb o "th" then 1 else 3.

Definition channels (o : string) (s : list Z) : option Z :=
  nth_error s (Z.to_nat (channel_axis o)).

Definition spatial (o : string) (s : list Z) : option (Z * Z) :=
  match s with
  | [_; d1; d2; d3] => Some (if String.eqb o "th" then (d2, d3) else (d1, d2))
  | _ => None
  end.

(** The channel count after [n] refinement blocks of width [f] on a
    tensor of [c] channels. *)
Definition padded_channels (n : nat) (f c : Z) : Z :=
  match n with O => c | S _ => f end.

(** ** Reading the graph *)

(** The tensors the encoder and decoder stages leave in the frame. *)
Definition encoder_stages (F : frame) : list tensor :=
  [conv1 F; conv2 F; conv3 F; conv4 F; conv5 F; conv6 F; conv7 F; conv8 F; conv9 F].

Definition decoder_stages (F : frame) : list tensor :=
  [dconv1 F; dconv2 F; dconv3 F; dconv4 F; dconv5 F; dconv6 F; dconv7 F; dconv8 F;
   dconv9 F].

(** The multiplier schedule of the filter width. *)
Definition schedule : list Z := [1; 2; 4; 8; 8; 8; 8; 8].

Definition is_upsampling (l : layer) : bool :=
  match l with
  | Conv2DTranspose _ _ _ _ _ => true
  | Deconvolution2D _ _ _ _ _ _ _ => true
  | _ => false
  end.

Definition is_merge (l : layer) : bool :=
  match l with
  | Concatenate _ => true
  | Merge _ _ => true
  | _ => false
  end.

Definition merge_axis (l : layer) : option Z :=
  match l with
  | Concatenate axis => Some axis
  | Merge _ axis => Some axis
  | _ => None
  end.

(** A convolution that keeps the resolution: padding ['same'], stride 1. *)
Definition is_refinement_conv (l : layer) : bool :=
  match l with
  | Convolution2D _ _ same (sr, sc) _ => Z.eqb sr 1 && Z.eqb sc 1
  | _ => false
  end.

(** The tensor fed to the upsampling layer a decoder tensor comes from: the
    output of the stage before it. *)
Fixpoint upsample_input (t : tensor) : option tensor :=
  match t with
  | Call l [x] => if is_upsampling l then Some x else upsample_input x
  | _ => None
  end.

(** The skip concatenation nearest below a tensor, through calls on a single
    tensor. *)
Fixpoint merge_below (t : tensor) : option (layer * list tensor) :=
  match t with
  | Call l xs =>
      if is_merge l then Some (l, xs)
      else match xs with
           | [x] => merge_below x
           | _ => None
           end
  | Placeholder _ => None
  end.

(** How many refinement blocks (resolution-keeping convolution, batch
    normalisation, leaky ReLU) sit on top of a tensor. *)
Fixpoint refinement_blocks (t : tensor) : nat :=
  match t with
  | Call (LeakyReLU _) [Call (BatchNormalization _ _) [Call c [x]]] =>
      if is_refinement_conv c then S (refinement_blocks x) else O
  | _ => O
  end.


(** The tensor the final activation reads. *)
Definition final_input (t : tensor) : option tensor :=
  match t with
  | Call (Activation _) [x] => Some x
  | _ => None
  end.

(** The outputs of the 9 encoder and the 9 decoder stages, refinement
    blocks included: [conv1] to [conv8], the activated [conv9], the tensors
    fed to [dconv2] to [dconv9], and the tensor fed to the final
    activation. *)
Definition stage_outputs (F : frame) : list (option tensor) :=
  map Some (firstn 8 (encoder_stages F))
    ++ [upsample_input (dconv1 F)]
    ++ map upsample_input (skipn 1 (decoder_stages F))
    ++ [final_input (out F)].

Definition stage_blocks (F : frame) : list (option nat) :=
  map (option_map refinement_blocks) (stage_outputs F).

(** The frame and the final state of a run, when it returns. *)
Definition frame_at (w : world) (in_ch out_ch nf batch_size : Z) (is_binary : bool)
  (num_padded_conv : Z) (name : string) : option frame :=
  match g_unet_frame in_ch out_ch nf batch_size is_binary num_padded_conv name w with
  | (Ok F, _) => Some F
  | (Raise _, _) => None
  end.

(** The activations by name, on real numbers. *)
Definition sigmoid (v : R) : R := (1 / (1 + exp (- v)))%R.

Definition activation_fn (name : string) : option (R -> R) :=
  if String.eqb name "sigmoid" then Some sigmoid
  else if String.eqb name "tanh" then Some tanh
  else None.

(** The spatial size and the channel count of a tensor in ordering [o], for
    a batch of [b]. *)
Definition spatial_of (o : string) (b : Z) (t : tensor) : option (Z * Z) :=
  match Keras.shape_of b t with
  | Some s => spatial o s
  | None => None
  end.

Definition channels_of (o : string) (b : Z) (t : tensor) : option Z :=
  match Keras.shape_of b t with
  | Some s => channels o s
  | None => None
  end.


Definition skip_consumers (F : frame) : list tensor :=
  skipn 1 (decoder_stages F).


Definition is_dropout (l : layer) : bool :=
  match l with
  | Dropout _ => true
  | _ => false
  end.

(** How many of the layer objects satisfy [p]. *)
Definition count_layers (p : layer -> bool) (ls : list layer) : nat :=
  List.length (filter p ls).

(** ** Reading the layer objects *)

Definition is_input (l : layer) : bool :=
  match l with
  | InputLayer _ => true
  | _ => false
  end.

Definition is_convolution (l : layer) : bool :=
  match l with
  | Convolution2D _ _ _ _ _ => true
  | _ => false
  end.

Definition is_batch_norm (l : layer) : bool :=
  match l with
  | BatchNormalization _ _ => true
  | _ => false
  end.

Definition is_leaky_relu (l : layer) : bool :=
  match l with
  | LeakyReLU _ => true
  | _ => false
  end.

Definition is_activation (l : layer) : bool :=
  match l with
  | Activation _ => true
  | _ => false
  end.

(** The [output_shape] recorded in the upsampling layer a decoder tensor
    comes from; only Keras 1's [Deconvolution2D] records one. *)
Fixpoint declared_output_shape (t : tensor) : option (list Z) :=
  match t with
  | Call l [x] =>
      match l with
      | Deconvolution2D _ _ _ output_shape _ _ _ => Some output_shape
      | Conv2DTranspose _ _ _ _ _ => None
      | _ => declared_output_shape x
      end
  | _ => None
  end.

(** The tensor an encoder stage reads: below its refinement blocks, the
    input of its convolution, batch normalisation and leaky ReLU. *)
Fixpoint stage_source (t : tensor) : option tensor :=
  match t with
  | Call (LeakyReLU _) [Call (BatchNormalization _ _) [Call c [x]]] =>
      if is_refinement_conv c then stage_source x
      else if is_convolution c then Some x else None
  | _ => None
  end.

(** What every layer object of a call has in common with the state it was
    created in: the layout and the version-dependent arguments follow
    [KERAS_2] and the ordering, and the hyperparameters are the literals of
    the source. *)
Definition layer_in_keeping (K2 : bool) (o : string) (l : layer) : Prop :=
  match l with
  | InputLayer shape => List.length shape = 3%nat
  | Convolution2D _ (kr, kc) _ (sr, sc) fmt =>
      kr = kc /\ sr = sc /\ (sr = 1 \/ sr = 2)
      /\ Keras.channels_first fmt = Some (String.eqb o "th")
  | Conv2DTranspose _ (kr, kc) bm (sr, sc) fmt =>
      K2 = true /\ kr = 2 /\ kc = 2 /\ bm = valid /\ sr = sc /\ (sr = 1 \/ sr = 2)
      /\ Keras.channels_first fmt = Some (String.eqb o "th")
  | Deconvolution2D f nb_row nb_col output_shape bm (sr, sc) fmt =>
      K2 = false /\ nb_row = 2 /\ nb_col = 2 /\ bm = valid /\ sr = sc
      /\ (sr = 1 \/ sr = 2) /\ fmt = o
      /\ channels o output_shape = Some f
  | BatchNormalization mode axis =>
      axis = 1 /\ mode = (if K2 then None else Some 2)
  | LeakyReLU alpha => alpha = 0.2%Q
  | Dropout rate => rate = 0.5%Q
  | Activation a => a = "sigmoid" \/ a = "tanh"
  | Concatenate axis => K2 = true /\ axis = channel_axis o
  | Merge mode axis => K2 = false /\ mode = "concat" /\ axis = channel_axis o
  end.

(** The channel count of the tensor fed to the upsampling layer a decoder
    tensor comes from. *)
Definition input_channels_of (o : string) (b : Z) (t : tensor) : option Z :=
  match upsample_input t with
  | Some x => channels_of o b x
  | None => None
  end.

(** ** Reading the main path *)

(** The layers that change the resolution: the convolutions that are not
    refinement convolutions, and the upsampling layers. *)
Definition is_stage_transform (l : layer) : bool :=
  (is_convolution l && negb (is_refinement_conv l)) || is_upsampling l.

(** The main path of a tensor runs from it down to a leaf through the
    first input of every call; [root] is the leaf it ends in. *)
Fixpoint root (t : tensor) : tensor :=
  match t with
  | Call _ (x :: _) => root x
  | _ => t
  end.

(** A stage transform with the tensor it reads and the tensor it gives. *)
Definition transform_of (l : layer) (x : tensor) : layer * tensor * tensor :=
  (l, x, Call l [x]).

(** The stage transforms on the main path of a tensor, from the leaf to the
    tensor itself. *)
Fixpoint transforms (t : tensor) : list (layer * tensor * tensor) :=
  match t with
  | Call l (x :: _) =>
      transforms x ++ (if is_stage_transform l then [(l, x, t)] else [])
  | _ => []
  end.

(** What a stage transform does on a batch of [b]: whether it is an
    upsampling layer, the size of the tensor it reads and the shape of the
    tensor it gives. *)
Definition transform_summary (o : string) (b : Z) (tr : layer * tensor * tensor)
  : bool * option (Z * Z) * option (list Z) :=
  let '(l, x, y) := tr in (is_upsampling l, spatial_of o b x, Keras.shape_of b y).

Definition summary_sizes (o : string) (s : bool * option (Z * Z) * option (list Z))
  : bool * option (Z * Z) * option (Z * Z) :=
  let '(up, size_in, shape_out) := s in
  (up, size_in, match shape_out with Some s' => spatial o s' | None => None end).

Definition summary_channels (o : string)
  (s : bool * option (Z * Z) * option (list Z)) : bool * option Z :=
  let '(up, _, shape_out) := s in
  (up, match shape_out with Some s' => channels o s' | None => None end).

(** The number of refinement convolutions that follow each stage transform
    of the main path, before the next stage transform or the tensor
    itself; [above] counts those met so far on the way down. *)
Fixpoint blocks_after (t : tensor) (above : nat) : list nat :=
  match t with
  | Call l (x :: _) =>
      if is_stage_transform l then blocks_after x O ++ [above]
      else if is_refinement_conv l then blocks_after x (S above)
      else blocks_after x above
  | _ => []
  end.

(** The encoder tensor a decoder tensor is built on: the second input of
    the concatenation nearest below it. *)
Definition skip_input (t : tensor) : option tensor :=
  match merge_below t with
  | Some (_, [_; c]) => Some c
  | _ => None
  end.

(** The call of the upsampling layer a decoder tensor comes from. *)
Fixpoint upsample_call (t : tensor) : option tensor :=
  match t with
  | Call l [x] => if is_upsampling l then Some t else upsample_call x
  | _ => None
  end.

(** How the tensors of the frame sit on the main path of its output: the
    first ten stage transforms read the input, [conv1] to [conv8] and the
    activated [conv9], in this order, and the last nine are the upsampling
    calls that [dconv1] to [dconv9] come from. *)
Definition stages_on_path (F : frame) : Prop :=
  map (fun tr => snd (fst tr)) (firstn 10 (transforms (out F)))
  = (i F :: firstn 8 (encoder_stages F) ++ [Call (LeakyReLU 0.2) [conv9 F]])%list
  /\ map (fun tr => Some (snd tr)) (skipn 9 (transforms (out F)))
     = map upsample_call (decoder_stages F)
  /\ root (out F) = i F
  /\ model_input (unet F) = i F
  /\ model_output (unet F) = out F.

(** ** Running the builder *)

Lemma bind_ok {A B} (m : M A) (k : A -> M B) (w w' : world) (a : A) :
  m w = (Ok a, w') -> bind m k w = k a w'.
Proof. intros H. unfold bind. rewrite H. reflexivity. Qed.

Section Run.

Variables (K2 : bool) (o : string) (so : list string).

Lemma run_Convolution f k s bm x ls :
  (Convolution f k s bm @@ x) (mkWorld K2 o so ls)
  = (Ok (Call (conv_layer K2 o f k s bm) [x]),
     mkWorld K2 o so (ls ++ [conv_layer K2 o f k s bm])).
Proof. destruct K2; reflexivity. Qed.

Lemma run_Deconvolution f os k s x ls :
  (Deconvolution f os k s @@ x) (mkWorld K2 o so ls)
  = (Ok (Call (deconv_layer K2 o f os k s) [x]),
     mkWorld K2 o so (ls ++ [deconv_layer K2 o f os k s])).
Proof. destruct K2; reflexivity. Qed.

Lemma run_BatchNorm m a x ls :
  (BatchNorm m a @@ x) (mkWorld K2 o so ls)
  = (Ok (Call (BatchNormalization (if K2 then None else Some 2) a) [x]),
     mkWorld K2 o so (ls ++ [BatchNormalization (if K2 then None else Some 2) a])).
Proof. destruct K2; reflexivity. Qed.

Lemma run_new_layer l x ls :
  (new_layer l @@ x) (mkWorld K2 o so ls)
  = (Ok (Call l [x]), mkWorld K2 o so (ls ++ [l])).
Proof. reflexivity. Qed.

Lemma run_concatenate_layers xs axis ls :
  concatenate_layers xs axis "concat" (mkWorld K2 o so ls)
  = (Ok (Call (if K2 then Concatenate axis else Merge "concat" axis) xs),
     mkWorld K2 o so (ls ++ [if K2 then Concatenate axis else Merge "concat" axis])).
Proof. destruct K2; reflexivity. Qed.

Lemma run_for_loop n f x ls :
  for_loop n
    (fun x =>
       x <- Convolution f 3 1 same @@ x ;;
       x <- BatchNorm 2 1 @@ x ;;
       x <- new_layer (LeakyReLU 0.2) @@ x ;;
       ret x) x (mkWorld K2 o so ls)
  = (Ok (padded K2 o n f x), mkWorld K2 o so (ls ++ padded_layers K2 o n f)).
Proof.
  revert x ls. induction n as [|n IH]; intros x ls.
  - simpl. unfold ret. now rewrite app_nil_r.
  - cbn [for_loop padded padded_layers].
    erewrite bind_ok.
    2:{ erewrite bind_ok by apply run_Convolution.
        erewrite bind_ok by apply run_BatchNorm.
        erewrite bind_ok by apply run_new_layer.
        reflexivity. }
    rewrite IH. unfold block_layers, block, bn_layer.
    now rewrite <- !app_assoc.
Qed.

Lemma run_padded_conv num f x ls :
  padded_conv num f x (mkWorld K2 o so ls)
  = (Ok (padded K2 o (Z.to_nat num) f x),
     mkWorld K2 o so (ls ++ padded_layers K2 o (Z.to_nat num) f)).
Proof. apply run_for_loop. Qed.

End Run.

Ltac run_step :=
  first
    [ erewrite bind_ok by apply run_Convolution
    | erewrite bind_ok by apply run_Deconvolution
    | erewrite bind_ok by apply run_BatchNorm
    | erewrite bind_ok by apply run_new_layer
    | erewrite bind_ok by apply run_padded_conv
    | erewrite bind_ok by apply run_concatenate_layers ];
  cbv beta.

Lemma run_dispatch (K2 : bool) (o : string) (so : list string) (ls : list layer)
  (in_ch : Z) (mp : merge_params_t) :
  supported o ->
  dim_ordering_dispatch in_ch mp (mkWorld K2 o so ls)
  = (Ok (Placeholder (input_shape_of o in_ch), deconv_shape_of o,
         mkMergeParams (mp_mode mp) (if String.eqb o "th" then mp_concat_axis mp else 3)),
     mkWorld K2 o (so ++ [banner o]) (ls ++ [InputLayer (input_shape_of o in_ch)])).
Proof.
  intros [-> | ->]; destruct mp; reflexivity.
Qed.

Lemma run_g_unet_frame (K2 : bool) (o : string) (so : list string) (ls : list layer)
  (in_ch out_ch nf batch_size : Z) (is_binary : bool) (num_padded_conv : Z)
  (name : string) :
  supported o ->
  g_unet_frame in_ch out_ch nf batch_size is_binary num_padded_conv name
    (mkWorld K2 o so ls)
  = (Ok (frame_of K2 o in_ch out_ch nf batch_size is_binary num_padded_conv name),
     mkWorld K2 o (so ++ [banner o])
       (ls ++ layers_of K2 o in_ch out_ch nf batch_size is_binary num_padded_conv)).
Proof.
  intros Ho. unfold g_unet_frame.
  erewrite bind_ok by (apply run_dispatch; exact Ho).
  cbv beta iota zeta. cbn [mp_mode mp_concat_axis].
  replace (if String.eqb o "th" then 1 else 3) with (concat_axis_of o) by reflexivity.
  repeat run_step.
  unfold ret. f_equal.
  f_equal. unfold layers_of, body_layers_of, down_layers, up_layers, skip_layers.
  rewrite <- !app_assoc. reflexivity.
Qed.

(** ** Shapes through the graph *)

Lemma shape_eqb_refl (s : list Z) : Keras.shape_eqb s s = true.
Proof.
  induction s as [|d s IH]; simpl; [reflexivity|].
  now rewrite Z.eqb_refl, IH.
Qed.

Lemma conv_same_1 (h k : Z) : Keras.conv_output_length h k same 1 = h.
Proof.
  unfold Keras.conv_output_length. rewrite Z.div_1_r. lia.
Qed.

Section Shapes.

Variables (K2 : bool) (o : string) (b : Z).
Hypothesis Ho : supported o.

Abbreviation sh := (shape4 o b).
Abbreviation shape_of := (Keras.shape_of b).

Lemma shape_Placeholder in_ch :
  shape_of (Placeholder (input_shape_of o in_ch)) = Some (sh in_ch 512 512).
Proof. destruct Ho; subst; reflexivity. Qed.

Lemma shape_conv x c h w f k s bm :
  shape_of x = Some (sh c h w) ->
  shape_of (Call (conv_layer K2 o f k s bm) [x])
  = Some (sh f (Keras.conv_output_length h k bm s) (Keras.conv_output_length w k bm s)).
Proof.
  intros H. cbn [Keras.shape_of map Keras.all_some]. rewrite H.
  destruct Ho; subst; destruct K2; reflexivity.
Qed.

Lemma shape_deconv x c h w f bs r r' k s :
  shape_of x = Some (sh c h w) ->
  Keras.deconv_length h s k valid = r ->
  Keras.deconv_length w s k valid = r' ->
  shape_of (Call (deconv_layer K2 o f (deconv_shape_of o bs f r r') k s) [x])
  = Some (sh f r r').
Proof.
  intros H <- <-. cbn [Keras.shape_of map Keras.all_some]. rewrite H.
  destruct Ho; subst; destruct K2; reflexivity.
Qed.

Lemma shape_bn x s :
  shape_of x = Some s -> shape_of (Call (bn_layer K2) [x]) = Some s.
Proof. intros H. cbn [Keras.shape_of map Keras.all_some]. now rewrite H. Qed.

Lemma shape_LeakyReLU x s a :
  shape_of x = Some s -> shape_of (Call (LeakyReLU a) [x]) = Some s.
Proof. intros H. cbn [Keras.shape_of map Keras.all_some]. now rewrite H. Qed.

Lemma shape_Dropout x s a :
  shape_of x = Some s -> shape_of (Call (Dropout a) [x]) = Some s.
Proof. intros H. cbn [Keras.shape_of map Keras.all_some]. now rewrite H. Qed.

Lemma shape_Activation x s a :
  shape_of x = Some s -> shape_of (Call (Activation a) [x]) = Some s.
Proof. intros H. cbn [Keras.shape_of map Keras.all_some]. now rewrite H. Qed.

Lemma shape_concat d e c1 c2 h w :
  shape_of d = Some (sh c1 h w) ->
  shape_of e = Some (sh c2 h w) ->
  shape_of (Call (concat_layer K2 o) [d; e]) = Some (sh (c1 + c2) h w).
Proof.
  intros Hd He. cbn [Keras.shape_of map Keras.all_some]. rewrite Hd, He.
  unfold Keras.compute_output_shape, concat_layer, concat_axis_of.
  destruct Ho; subst; destruct K2; simpl;
    rewrite ?Z.eqb_refl; simpl; rewrite ?Z.eqb_refl; reflexivity.
Qed.

Lemma shape_block x f h w :
  shape_of x = Some (sh f h w) -> shape_of (block K2 o f x) = Some (sh f h w).
Proof.
  intros H. unfold block. apply shape_LeakyReLU, shape_bn.
  rewrite (shape_conv _ _ _ _ _ _ _ _ H), !conv_same_1. reflexivity.
Qed.

Lemma shape_padded n x f c h w :
  shape_of x = Some (sh c h w) ->
  shape_of (padded K2 o n f x) = Some (sh (padded_channels n f c) h w).
Proof.
  destruct n as [|n]; [easy|]. cbn [padded padded_channels].
  intros H.
  assert (Hb : shape_of (block K2 o f x) = Some (sh f h w)).
  { unfold block. apply shape_LeakyReLU, shape_bn.
    rewrite (shape_conv _ _ _ _ _ _ _ _ H), !conv_same_1. reflexivity. }
  clear H. revert x Hb. induction n as [|n IH]; intros x Hb; [exact Hb|].
  cbn [padded]. apply IH. now apply shape_block.
Qed.

Lemma padded_channels_same n f : padded_channels n f f = f.
Proof. now destruct n. Qed.

Lemma shape_down n x f c h w h' w' :
  shape_of x = Some (sh c h w) ->
  Keras.conv_output_length h 3 same 2 = h' ->
  Keras.conv_output_length w 3 same 2 = w' ->
  shape_of (down K2 o n f x) = Some (sh f h' w').
Proof.
  intros H <- <-. unfold down.
  erewrite shape_padded; [now rewrite padded_channels_same|].
  apply shape_LeakyReLU, shape_bn. now apply shape_conv with (c := c).
Qed.

Lemma shape_up dr x c h w f bs r r' k s :
  shape_of x = Some (sh c h w) ->
  Keras.deconv_length h s k valid = r ->
  Keras.deconv_length w s k valid = r' ->
  shape_of (up K2 o dr f (deconv_shape_of o bs f r r') k s x) = Some (sh f r r').
Proof.
  intros H Hr Hr'. unfold up.
  pose proof (shape_bn _ _ (shape_deconv _ _ _ _ f bs _ _ _ _ H Hr Hr')) as Hd.
  destruct dr; [now apply shape_Dropout | exact Hd].
Qed.

Lemma shape_skip n f d e c1 c2 h w :
  shape_of d = Some (sh c1 h w) ->
  shape_of e = Some (sh c2 h w) ->
  shape_of (skip K2 o n f d e) = Some (sh (padded_channels n f (c1 + c2)) h w).
Proof.
  intros Hd He. unfold skip. apply shape_padded, shape_LeakyReLU.
  now apply shape_concat.
Qed.

End Shapes.

Section FrameShapes.

Variables (K2 : bool) (o : string) (b : Z).
Hypothesis Ho : supported o.
Variables (in_ch out_ch nf batch_size : Z) (is_binary : bool)
  (num_padded_conv : Z) (name : string).

Abbreviation F :=
  (frame_of K2 o in_ch out_ch nf batch_size is_binary num_padded_conv name).
Abbreviation sh := (shape4 o b).

Lemma frame_shapes :
  Keras.shape_of b (i F) = Some (sh in_ch 512 512)
  /\ map (Keras.shape_of b) (encoder_stages F)
     = map Some [sh nf 256 256; sh (nf * 2) 128 128; sh (nf * 4) 64 64;
                 sh (nf * 8) 32 32; sh (nf * 8) 16 16; sh (nf * 8) 8 8;
                 sh (nf * 8) 4 4; sh (nf * 8) 2 2; sh (nf * 8) 1 1]
  /\ map (Keras.shape_of b) (decoder_stages F)
     = map Some [sh (nf * 8) 2 2; sh (nf * 8) 4 4; sh (nf * 8) 8 8;
                 sh (nf * 8) 16 16; sh (nf * 8) 32 32; sh (nf * 4) 64 64;
                 sh (nf * 2) 128 128; sh nf 256 256; sh out_ch 512 512]
  /\ Keras.shape_of b (out F) = Some (sh out_ch 512 512).
Proof.
  set (n := Z.to_nat num_padded_conv).
  pose proof (shape_Placeholder o b Ho in_ch) as Hi.
  pose proof (shape_down K2 o b Ho n _ nf _ _ _ 256 256 Hi eq_refl eq_refl) as H1.
  pose proof (shape_down K2 o b Ho n _ (nf * 2) _ _ _ 128 128 H1 eq_refl eq_refl) as H2.
  pose proof (shape_down K2 o b Ho n _ (nf * 4) _ _ _ 64 64 H2 eq_refl eq_refl) as H3.
  pose proof (shape_down K2 o b Ho n _ (nf * 8) _ _ _ 32 32 H3 eq_refl eq_refl) as H4.
  pose proof (shape_down K2 o b Ho n _ (nf * 8) _ _ _ 16 16 H4 eq_refl eq_refl) as H5.
  pose proof (shape_down K2 o b Ho n _ (nf * 8) _ _ _ 8 8 H5 eq_refl eq_refl) as H6.
  pose proof (shape_down K2 o b Ho n _ (nf * 8) _ _ _ 4 4 H6 eq_refl eq_refl) as H7.
  pose proof (shape_down K2 o b Ho n _ (nf * 8) _ _ _ 2 2 H7 eq_refl eq_refl) as H8.
  pose proof (shape_bn K2 b _ _ (shape_conv K2 o b Ho _ _ _ _ (nf * 8) 2 1 valid H8)) as H9.
  change (Keras.conv_output_length 2 2 valid 1) with 1 in H9.
  pose proof (shape_LeakyReLU b _ _ 0.2%Q H9) as X9.
  pose proof (shape_up K2 o b Ho true _ _ _ _ (nf * 8) batch_size 2 2 2 1 X9 eq_refl eq_refl) as D1.
  pose proof (shape_skip K2 o b Ho n (nf * 8) _ _ _ _ _ _ D1 H8) as X1.
  pose proof (shape_up K2 o b Ho true _ _ _ _ (nf * 8) batch_size 4 4 2 2 X1 eq_refl eq_refl) as D2.
  pose proof (shape_skip K2 o b Ho n (nf * 8) _ _ _ _ _ _ D2 H7) as X2.
  pose proof (shape_up K2 o b Ho true _ _ _ _ (nf * 8) batch_size 8 8 2 2 X2 eq_refl eq_refl) as D3.
  pose proof (shape_skip K2 o b Ho n (nf * 8) _ _ _ _ _ _ D3 H6) as X3.
  pose proof (shape_up K2 o b Ho false _ _ _ _ (nf * 8) batch_size 16 16 2 2 X3 eq_refl eq_refl) as D4.
  pose proof (shape_skip K2 o b Ho n (nf * 8) _ _ _ _ _ _ D4 H5) as X4.
  pose proof (shape_up K2 o b Ho false _ _ _ _ (nf * 8) batch_size 32 32 2 2 X4 eq_refl eq_refl) as D5.
  pose proof (shape_skip K2 o b Ho n (nf * 8) _ _ _ _ _ _ D5 H4) as X5.
  pose proof (shape_up K2 o b Ho false _ _ _ _ (nf * 4) batch_size 64 64 2 2 X5 eq_refl eq_refl) as D6.
  pose proof (shape_skip K2 o b Ho n (nf * 4) _ _ _ _ _ _ D6 H3) as X6.
  pose proof (shape_up K2 o b Ho false _ _ _ _ (nf * 2) batch_size 128 128 2 2 X6 eq_refl eq_refl) as D7.
  pose proof (shape_skip K2 o b Ho n (nf * 2) _ _ _ _ _ _ D7 H2) as X7.
  pose proof (shape_up K2 o b Ho false _ _ _ _ nf batch_size 256 256 2 2 X7 eq_refl eq_refl) as D8.
  pose proof (shape_skip K2 o b Ho n nf _ _ _ _ _ _ D8 H1) as X8.
  pose proof (shape_deconv K2 o b Ho _ _ _ _ out_ch batch_size 512 512 2 2 X8 eq_refl eq_refl) as D9.
  pose proof (shape_Activation b _ _ (if is_binary then "sigmoid" else "tanh") D9) as HO.
  unfold frame_of, encoder_stages, decoder_stages.
  cbn [map i conv1 conv2 conv3 conv4 conv5 conv6 conv7 conv8 conv9
         dconv1 dconv2 dconv3 dconv4 dconv5 dconv6 dconv7 dconv8 dconv9 out].
  fold n.
  rewrite Hi, H1, H2, H3, H4, H5, H6, H7, H8, H9, D1, D2, D3, D4, D5, D6, D7, D8, D9, HO.
  repeat split.
Qed.

End FrameShapes.

Lemma run_g_unet (K2 : bool) (o : string) (so : list string) (ls : list layer)
  (in_ch out_ch nf batch_size : Z) (is_binary : bool) (num_padded_conv : Z)
  (name : string) :
  supported o ->
  g_unet in_ch out_ch nf batch_size is_binary num_padded_conv name (mkWorld K2 o so ls)
  = (Ok (unet (frame_of K2 o in_ch out_ch nf batch_size is_binary num_padded_conv name)),
     mkWorld K2 o (so ++ [banner o])
       (ls ++ layers_of K2 o in_ch out_ch nf batch_size is_binary num_padded_conv)).
Proof.
  intros Ho. unfold g_unet.
  erewrite bind_ok by (apply run_g_unet_frame; exact Ho). reflexivity.
Qed.

(** ** The claims *)

Lemma spatial_shape4 (o : string) (b c h v : Z) :
  supported o -> spatial o (shape4 o b c h v) = Some (h, v).
Proof. intros [-> | ->]; reflexivity. Qed.

Lemma channels_shape4 (o : string) (b c h v : Z) :
  supported o -> channels o (shape4 o b c h v) = Some c.
Proof. intros [-> | ->]; reflexivity. Qed.

Lemma spatial_of_shape (o : string) (b : Z) (t : tensor) (c h v : Z) :
  supported o ->
  Keras.shape_of b t = Some (shape4 o b c h v) -> spatial_of o b t = Some (h, v).
Proof. intros Ho H. unfold spatial_of. rewrite H. now apply spatial_shape4. Qed.

Lemma channels_of_shape (o : string) (b : Z) (t : tensor) (c h v : Z) :
  supported o ->
  Keras.shape_of b t = Some (shape4 o b c h v) -> channels_of o b t = Some c.
Proof. intros Ho H. unfold channels_of. rewrite H. now apply channels_shape4. Qed.

Lemma shapes_read (o : string) (b : Z) (l : list tensor) (dims : list (Z * Z * Z)) :
  supported o ->
  map (Keras.shape_of b) l
  = map (fun d => Some (shape4 o b (fst (fst d)) (snd (fst d)) (snd d))) dims ->
  map (spatial_of o b) l = map (fun d => Some (snd (fst d), snd d)) dims
  /\ map (channels_of o b) l = map (fun d => Some (fst (fst d))) dims.
Proof.
  intros Ho. revert dims. induction l as [|t l IH]; intros [|d dims] H;
    try discriminate; [split; reflexivity|].
  cbn [map] in H. injection H as Ht Hl.
  destruct (IH _ Hl) as [IHs IHc]. cbn [map].
  rewrite (spatial_of_shape _ _ _ _ _ _ Ho Ht), (channels_of_shape _ _ _ _ _ _ Ho Ht).
  now rewrite IHs, IHc.
Qed.

Section SkipLinks.

Variables (K2 : bool) (o : string).

Lemma merge_below_padded n f x :
  merge_below (padded K2 o n f x) = merge_below x.
Proof.
  revert x. induction n as [|n IH]; intros x; [reflexivity|].
  cbn [padded]. rewrite IH. destruct K2; reflexivity.
Qed.

Lemma merge_below_deconv f os k s x :
  merge_below (Call (deconv_layer K2 o f os k s) [x]) = merge_below x.
Proof. destruct K2; reflexivity. Qed.

Lemma merge_below_up dr f os k s x :
  merge_below (up K2 o dr f os k s x) = merge_below x.
Proof. destruct dr, K2; reflexivity. Qed.

Lemma merge_below_skip n f d c :
  merge_below (skip K2 o n f d c) = Some (concat_layer K2 o, [d; c]).
Proof. unfold skip. rewrite merge_below_padded. destruct K2; reflexivity. Qed.



End SkipLinks.



Lemma run_g_unet_unsupported (w : world) (in_ch out_ch nf batch_size : Z)
  (is_binary : bool) (num_padded_conv : Z) (name : string) :
  dim_ordering_ w <> "th" ->
  dim_ordering_ w <> "tf" ->
  g_unet in_ch out_ch nf batch_size is_binary num_padded_conv name w
  = (Raise (ValueError ("Keras dimension ordering not supported: " ++ dim_ordering_ w)),
     w).
Proof.
  intros Hth Htf.
  apply String.eqb_neq in Hth, Htf.
  unfold g_unet, g_unet_frame, dim_ordering_dispatch, bind at 1 2 3.
  unfold K.image_dim_ordering at 1. rewrite Hth.
  unfold bind at 1. unfold K.image_dim_ordering at 1. rewrite Htf.
  reflexivity.
Qed.

(** C7. When the ordering in force is neither ['th'] nor ['tf'], [g_unet]
    raises the [ValueError] naming it and leaves the state as it found it:
    no layer object is created, nothing is printed and no model is
    returned. *)
Theorem unsupported_ordering_raises (w : world) (in_ch out_ch nf batch_size : Z)
  (is_binary : bool) (num_padded_conv : Z) (name : string) :
  dim_ordering_ w <> "th" ->
  dim_ordering_ w <> "tf" ->
  g_unet in_ch out_ch nf batch_size is_binary num_padded_conv name w
  = (Raise (ValueError ("Keras dimension ordering not supported: " ++ dim_ordering_ w)),
     w)
  /\ layers (snd (g_unet in_ch out_ch nf batch_size is_binary num_padded_conv name w))
     = layers w.
Proof.
  intros Hth Htf.
  rewrite (run_g_unet_unsupported w in_ch out_ch nf batch_size is_binary
             num_padded_conv name Hth Htf).
  split; reflexivity.
Qed.

Lemma unsupported_ordering_raises_witness :
  g_unet 3 1 4 2 false 0 "unet" (mkWorld true "default" [] [])
  = (Raise (ValueError "Keras dimension ordering not supported: default"),
     mkWorld true "default" [] [])
  /\ layers (snd (g_unet 3 1 4 2 false 0 "unet" (mkWorld true "default" [] []))) = [].
Proof.
  apply (unsupported_ordering_raises (mkWorld true "default" [] []) 3 1 4 2 false 0 "unet");
    discriminate.
Defined.

Lemma module_import_ordering (version : string) (importable : bool) (w : world) :
  fst (module_import version importable w) = Ok tt
  /\ dim_ordering_ (snd (module_import version importable w)) = "th".
Proof. destruct importable; split; reflexivity. Qed.

(** C9. Importing the module succeeds and leaves the image dimension
    ordering at ['th'], whatever it was and whichever Keras is installed.
    In any later state whose ordering is still the one the import left,
    every call of [g_unet] takes the ['th'] branch: it prints
    ['TheanoShapedU-NET'] and nothing else, returns a model (so it does not
    raise) and the model's input is the channels-first placeholder
    (in_ch, 512, 512). *)
Theorem import_selects_theano_branch (version : string) (importable : bool)
  (w_before w : world) (in_ch out_ch nf batch_size : Z) (is_binary : bool)
  (num_padded_conv : Z) (name : string) :
  dim_ordering_ w = dim_ordering_ (snd (module_import version importable w_before)) ->
  fst (module_import version importable w_before) = Ok tt
  /\ dim_ordering_ (snd (module_import version importable w_before)) = "th"
  /\ exists m w',
       g_unet in_ch out_ch nf batch_size is_binary num_padded_conv name w = (Ok m, w')
       /\ model_input m = Placeholder [in_ch; 512; 512]
       /\ stdout w' = (stdout w ++ ["TheanoShapedU-NET"])%list
       /\ dim_ordering_ w' = "th".
Proof.
  destruct (module_import_ordering version importable w_before) as [Hok Hth].
  rewrite Hth. intros Hw. split; [exact Hok|]. split; [reflexivity|].
  destruct w as [K2 o so ls]. cbn [dim_ordering_] in Hw. subst o.
  eexists _, _. split; [apply run_g_unet; left; reflexivity|].
  repeat split.
Qed.

Lemma import_selects_theano_branch_witness :
  fst (module_import "1.2.2" false (mkWorld true "tf" [] [])) = Ok tt
  /\ dim_ordering_ (snd (module_import "1.2.2" false (mkWorld true "tf" [] []))) = "th"
  /\ exists m w',
       g_unet 3 1 4 2 false 0 "unet"
         (snd (module_import "1.2.2" false (mkWorld true "tf" [] []))) = (Ok m, w')
       /\ model_input m = Placeholder [3; 512; 512]
       /\ stdout w'
          = (stdout (snd (module_import "1.2.2" false (mkWorld true "tf" [] [])))
               ++ ["TheanoShapedU-NET"])%list
       /\ dim_ordering_ w' = "th".
Proof.
  apply (import_selects_theano_branch "1.2.2" false (mkWorld true "tf" [] [])
           (snd (module_import "1.2.2" false (mkWorld true "tf" [] [])))
           3 1 4 2 false 0 "unet").
  reflexivity.
Defined.

(** C10. With [KERAS_2] set, the [Deconvolution] wrapper gives the same
    layer whatever [output_shape] it is passed, and two calls of [g_unet]
    that differ only in [batch_size] return the same model and leave the
    same state: the same layer objects in the same order. *)
Theorem keras2_ignores_batch_size (w : world) (in_ch out_ch nf b1 b2 : Z)
  (is_binary : bool) (num_padded_conv : Z) (name : string) :
  KERAS_2 w = true ->
  (forall f os1 os2 k s, Deconvolution f os1 k s w = Deconvolution f os2 k s w)
  /\ g_unet in_ch out_ch nf b1 is_binary num_padded_conv name w
     = g_unet in_ch out_ch nf b2 is_binary num_padded_conv name w.
Proof.
  destruct w as [K2 o so ls]. cbn [KERAS_2]. intros ->.
  split; [reflexivity|].
  destruct (String.eqb_spec o "th") as [Hth | Hth];
    [|destruct (String.eqb_spec o "tf") as [Htf | Htf]].
  - rewrite !run_g_unet by (left; exact Hth). reflexivity.
  - rewrite !run_g_unet by (right; exact Htf). reflexivity.
  - rewrite !run_g_unet_unsupported by assumption. reflexivity.
Qed.

Lemma keras2_ignores_batch_size_witness :
  (forall f os1 os2 k s,
      Deconvolution f os1 k s (mkWorld true "th" [] [])
      = Deconvolution f os2 k s (mkWorld true "th" [] []))
  /\ g_unet 3 1 4 1 false 1 "unet" (mkWorld true "th" [] [])
     = g_unet 3 1 4 16 false 1 "unet" (mkWorld true "th" [] []).
Proof.
  apply (keras2_ignores_batch_size (mkWorld true "th" [] []) 3 1 4 1 16 false 1 "unet").
  reflexivity.
Defined.

Lemma sigmoid_range (v : R) : (0 <= sigmoid v <= 1)%R.
Proof.
  unfold sigmoid.
  pose proof (exp_pos (- v)) as He.
  assert (Hd : (0 < 1 + exp (- v))%R) by lra.
  split.
  - apply Rlt_le. apply Rdiv_lt_0_compat; lra.
  - apply Rlt_le. apply (Rmult_lt_reg_r (1 + exp (- v))); [exact Hd|].
    unfold Rdiv. rewrite Rmult_assoc, Rinv_l by lra. lra.
Qed.

Lemma tanh_range (v : R) : (-1 <= tanh v <= 1)%R.
Proof.
  unfold tanh, sinh, cosh.
  pose proof (exp_pos v) as Hp. pose proof (exp_pos (- v)) as Hn.
  set (p := exp v) in *. set (q := exp (- v)) in *.
  assert (Hc : (0 < (p + q) / 2)%R) by lra.
  split; apply Rlt_le.
  - apply (Rmult_lt_reg_r ((p + q) / 2)); [exact Hc|].
    unfold Rdiv at 2. rewrite Rmult_assoc, Rinv_l by lra. lra.
  - apply (Rmult_lt_reg_r ((p + q) / 2)); [exact Hc|].
    unfold Rdiv at 1. rewrite Rmult_assoc, Rinv_l by lra. lra.
Qed.

(** C8. The model [g_unet] returns ends in an [Activation] layer applied to
    [dconv9]: ['sigmoid'] when [is_binary] is true, ['tanh'] when it is
    false.  On real numbers the first takes its values in [0, 1] and the
    second in [-1, 1].  The two runs agree on the input, on every encoder
    and decoder tensor and on the name; their layer objects are the same
    but for the last one, the activation. *)
Theorem final_activation (w : world) (in_ch out_ch nf batch_size : Z)
  (num_padded_conv : Z) (name : string) :
  supported (dim_ordering_ w) ->
  exists inp d common w_t w_f,
    g_unet in_ch out_ch nf batch_size true num_padded_conv name w
    = (Ok (mkModel inp (Call (Activation "sigmoid") [d]) name), w_t)
    /\ g_unet in_ch out_ch nf batch_size false num_padded_conv name w
       = (Ok (mkModel inp (Call (Activation "tanh") [d]) name), w_f)
    /\ layers w_t = (common ++ [Activation "sigmoid"])%list
    /\ layers w_f = (common ++ [Activation "tanh"])%list
    /\ stdout w_t = stdout w_f
    /\ (exists F_t F_f,
          frame_at w in_ch out_ch nf batch_size true num_padded_conv name = Some F_t
          /\ frame_at w in_ch out_ch nf batch_size false num_padded_conv name = Some F_f
          /\ encoder_stages F_t = encoder_stages F_f
          /\ decoder_stages F_t = decoder_stages F_f
          /\ dconv9 F_t = d
          /\ out F_t = Call (Activation "sigmoid") [dconv9 F_t]
          /\ out F_f = Call (Activation "tanh") [dconv9 F_f])
    /\ (exists s, activation_fn "sigmoid" = Some s /\ forall v, (0 <= s v <= 1)%R)
    /\ (exists t, activation_fn "tanh" = Some t /\ forall v, (-1 <= t v <= 1)%R).
Proof.
  destruct w as [K2 o so ls]. cbn [dim_ordering_]. intros Ho.
  eexists _, _,
    (ls ++ body_layers_of K2 o in_ch out_ch nf batch_size num_padded_conv)%list,
    _, _.
  split; [rewrite run_g_unet by exact Ho; reflexivity|].
  split; [rewrite run_g_unet by exact Ho; reflexivity|].
  split; [cbn [layers]; unfold layers_of; now rewrite app_assoc|].
  split; [cbn [layers]; unfold layers_of; now rewrite app_assoc|].
  split; [reflexivity|].
  split.
  { eexists _, _. unfold frame_at. rewrite !run_g_unet_frame by exact Ho.
    repeat split. }
  split.
  - exists sigmoid. split; [reflexivity | apply sigmoid_range].
  - exists tanh. split; [reflexivity | apply tanh_range].
Qed.

Lemma final_activation_witness :
  exists inp d common w_t w_f,
    g_unet 3 1 4 2 true 0 "unet" (mkWorld true "th" [] [])
    = (Ok (mkModel inp (Call (Activation "sigmoid") [d]) "unet"), w_t)
    /\ g_unet 3 1 4 2 false 0 "unet" (mkWorld true "th" [] [])
       = (Ok (mkModel inp (Call (Activation "tanh") [d]) "unet"), w_f)
    /\ layers w_t = (common ++ [Activation "sigmoid"])%list
    /\ layers w_f = (common ++ [Activation "tanh"])%list
    /\ stdout w_t = stdout w_f
    /\ (exists F_t F_f,
          frame_at (mkWorld true "th" [] []) 3 1 4 2 true 0 "unet" = Some F_t
          /\ frame_at (mkWorld true "th" [] []) 3 1 4 2 false 0 "unet" = Some F_f
          /\ encoder_stages F_t = encoder_stages F_f
          /\ decoder_stages F_t = decoder_stages F_f
          /\ dconv9 F_t = d
          /\ out F_t = Call (Activation "sigmoid") [dconv9 F_t]
          /\ out F_f = Call (Activation "tanh") [dconv9 F_f])
    /\ (exists s, activation_fn "sigmoid" = Some s /\ forall v, (0 <= s v <= 1)%R)
    /\ (exists t, activation_fn "tanh" = Some t /\ forall v, (-1 <= t v <= 1)%R).
Proof.
  apply (final_activation (mkWorld true "th" [] []) 3 1 4 2 0 "unet").
  left; reflexivity.
Defined.

Section Counting.

Variables (K2 : bool) (o : string).

Lemma count_layers_app p (l1 l2 : list layer) :
  count_layers p (l1 ++ l2) = (count_layers p l1 + count_layers p l2)%nat.
Proof. unfold count_layers. now rewrite filter_app, length_app. Qed.

Lemma count_refinement_padded n f :
  count_layers is_refinement_conv (padded_layers K2 o n f) = n.
Proof.
  induction n as [|n IH]; [reflexivity|].
  cbn [padded_layers]. rewrite count_layers_app, IH. reflexivity.
Qed.


Lemma count_refinement_body in_ch out_ch nf batch_size num_padded_conv :
  count_layers is_refinement_conv
    (body_layers_of K2 o in_ch out_ch nf batch_size num_padded_conv)
  = (16 * Z.to_nat num_padded_conv)%nat.
Proof.
  unfold body_layers_of, down_layers, up_layers, skip_layers.
  rewrite !count_layers_app, !count_refinement_padded.
  destruct K2; cbn; lia.
Qed.


Lemma padded_outer n f x :
  padded K2 o (S n) f x = block K2 o f (padded K2 o n f x).
Proof.
  revert x. induction n as [|n IH]; intros x; [reflexivity|].
  change (padded K2 o (S (S n)) f x) with (padded K2 o (S n) f (block K2 o f x)).
  rewrite IH. reflexivity.
Qed.

Lemma refinement_blocks_padded n f x :
  refinement_blocks (padded K2 o n f x) = (n + refinement_blocks x)%nat.
Proof.
  induction n as [|n IH]; [reflexivity|].
  rewrite padded_outer. unfold block at 1.
  cbn [refinement_blocks is_refinement_conv conv_layer bn_layer Z.eqb Pos.eqb andb].
  now rewrite IH.
Qed.

Lemma refinement_blocks_down n f x :
  refinement_blocks (down K2 o n f x) = n.
Proof. unfold down. rewrite refinement_blocks_padded. cbn. lia. Qed.

Lemma refinement_blocks_skip n f d c :
  refinement_blocks (skip K2 o n f d c) = n.
Proof.
  unfold skip. rewrite refinement_blocks_padded. destruct K2; cbn; lia.
Qed.

Lemma upsample_input_up dr f os k s x :
  upsample_input (up K2 o dr f os k s x) = Some x.
Proof. destruct dr, K2; reflexivity. Qed.

Lemma upsample_input_deconv f os k s x :
  upsample_input (Call (deconv_layer K2 o f os k s) [x]) = Some x.
Proof. destruct K2; reflexivity. Qed.

Lemma stage_blocks_frame in_ch out_ch nf batch_size is_binary num_padded_conv name :
  stage_blocks (frame_of K2 o in_ch out_ch nf batch_size is_binary num_padded_conv name)
  = map Some (repeat (Z.to_nat num_padded_conv) 8 ++ [O]
                ++ repeat (Z.to_nat num_padded_conv) 8 ++ [O])%list.
Proof.
  unfold stage_blocks, stage_outputs, frame_of, encoder_stages, decoder_stages.
  cbn [map firstn skipn app repeat option_map final_input
         conv1 conv2 conv3 conv4 conv5 conv6 conv7 conv8 conv9
         dconv1 dconv2 dconv3 dconv4 dconv5 dconv6 dconv7 dconv8 dconv9 out].
  rewrite !upsample_input_up, upsample_input_deconv.
  cbn [option_map].
  rewrite !refinement_blocks_down, !refinement_blocks_skip.
  destruct K2; reflexivity.
Qed.

End Counting.

Lemma refinement_conv_keeps_size (c : layer) (b d1 d2 d3 : Z) (s : list Z) :
  is_refinement_conv c = true ->
  Keras.compute_output_shape c [[b; d1; d2; d3]] = Some s ->
  (exists f, s = [b; f; d2; d3]) \/ (exists f, s = [b; d1; d2; f]).
Proof.
  destruct c as [| f [kr kc] [|] [sr sc] fmt | | | | | | | |]; try discriminate.
  cbn [is_refinement_conv]. intros H.
  apply andb_true_iff in H. destruct H as [Hr Hc].
  apply Z.eqb_eq in Hr, Hc. subst sr sc.
  cbn [Keras.compute_output_shape]. rewrite !conv_same_1.
  destruct (Keras.channels_first fmt) as [[|]|]; intros H; inversion H; eauto.
Qed.




(** ** Further properties of the module *)

Lemma supported_dec (o : string) : {supported o} + {o <> "th" /\ o <> "tf"}.
Proof.
  destruct (String.eqb_spec o "th") as [Hth | Hth]; [left; left; exact Hth|].
  destruct (String.eqb_spec o "tf") as [Htf | Htf]; [left; right; exact Htf|].
  right. split; assumption.
Qed.

(** X2. Whatever the state, a call of [g_unet] leaves [KERAS_2] and the
    image dimension ordering as they were; it prints at most one line, and
    the layer objects that existed before are still there, in front of the
    new ones. *)
Theorem g_unet_keeps_configuration (w : world) (in_ch out_ch nf batch_size : Z)
  (is_binary : bool) (num_padded_conv : Z) (name : string) :
  let w' := snd (g_unet in_ch out_ch nf batch_size is_binary num_padded_conv name w) in
  KERAS_2 w' = KERAS_2 w
  /\ dim_ordering_ w' = dim_ordering_ w
  /\ (exists printed,
        stdout w' = (stdout w ++ printed)%list /\ (List.length printed <= 1)%nat)
  /\ (exists created, layers w' = (layers w ++ created)%list).
Proof.
  destruct (supported_dec (dim_ordering_ w)) as [Ho | [Hth Htf]].
  - destruct w as [K2 o so ls]. cbn [dim_ordering_] in Ho.
    rewrite run_g_unet by exact Ho. cbn.
    repeat split; [exists [banner o] | eexists]; eauto.
  - rewrite run_g_unet_unsupported by assumption. cbn.
    repeat split; [exists [] | exists []]; rewrite app_nil_r; auto.
Qed.

Lemma run_g_unet_to_nat (w : world) (in_ch out_ch nf batch_size : Z)
  (is_binary : bool) (n1 n2 : Z) (name : string) :
  Z.to_nat n1 = Z.to_nat n2 ->
  g_unet in_ch out_ch nf batch_size is_binary n1 name w
  = g_unet in_ch out_ch nf batch_size is_binary n2 name w.
Proof.
  intros Hn.
  destruct (supported_dec (dim_ordering_ w)) as [Ho | [Hth Htf]].
  - destruct w as [K2 o so ls]. cbn [dim_ordering_] in Ho.
    rewrite !run_g_unet by exact Ho.
    unfold frame_of, layers_of, body_layers_of. rewrite Hn. reflexivity.
  - rewrite !run_g_unet_unsupported by assumption. reflexivity.
Qed.

(** X4. A negative [num_padded_conv] counts as zero: the loop of
    [padded_conv] runs over an empty range, and the call returns the same
    model and leaves the same state as with [num_padded_conv = 0]. *)
Theorem negative_num_padded_conv (w : world) (in_ch out_ch nf batch_size : Z)
  (is_binary : bool) (num_padded_conv : Z) (name : string) :
  num_padded_conv <= 0 ->
  g_unet in_ch out_ch nf batch_size is_binary num_padded_conv name w
  = g_unet in_ch out_ch nf batch_size is_binary 0 name w.
Proof.
  intros Hn. apply run_g_unet_to_nat.
  lia.
Qed.

Lemma negative_num_padded_conv_witness :
  g_unet 3 1 4 2 false (-3) "unet" (mkWorld false "th" [] [])
  = g_unet 3 1 4 2 false 0 "unet" (mkWorld false "th" [] []).
Proof.
  apply (negative_num_padded_conv (mkWorld false "th" [] []) 3 1 4 2 false (-3) "unet").
  lia.
Defined.

Section Declared.

Variable (o : string).

Lemma declared_up_keras1 dr f os k s x :
  declared_output_shape (up false o dr f os k s x) = Some os.
Proof. destruct dr; reflexivity. Qed.

Lemma declared_up_keras2 dr f os k s x :
  declared_output_shape (up true o dr f os k s x) = None.
Proof. destruct dr; reflexivity. Qed.

Lemma declared_decoder_keras1 in_ch out_ch nf batch_size is_binary num_padded_conv name :
  map declared_output_shape
    (decoder_stages
       (frame_of false o in_ch out_ch nf batch_size is_binary num_padded_conv name))
  = map Some
      [shape4 o batch_size (nf * 8) 2 2; shape4 o batch_size (nf * 8) 4 4;
       shape4 o batch_size (nf * 8) 8 8; shape4 o batch_size (nf * 8) 16 16;
       shape4 o batch_size (nf * 8) 32 32; shape4 o batch_size (nf * 4) 64 64;
       shape4 o batch_size (nf * 2) 128 128; shape4 o batch_size nf 256 256;
       shape4 o batch_size out_ch 512 512].
Proof.
  unfold decoder_stages, frame_of.
  cbn [map dconv1 dconv2 dconv3 dconv4 dconv5 dconv6 dconv7 dconv8 dconv9].
  rewrite !declared_up_keras1. reflexivity.
Qed.

Lemma declared_decoder_keras2 in_ch out_ch nf batch_size is_binary num_padded_conv name :
  map declared_output_shape
    (decoder_stages
       (frame_of true o in_ch out_ch nf batch_size is_binary num_padded_conv name))
  = repeat None 9.
Proof.
  unfold decoder_stages, frame_of.
  cbn [map dconv1 dconv2 dconv3 dconv4 dconv5 dconv6 dconv7 dconv8 dconv9].
  rewrite !declared_up_keras2. reflexivity.
Qed.

End Declared.

(** X5. Under Keras 1 the batch size is part of the graph: the last
    upsampling layer records (batch_size, out_ch, 512, 512), in the
    ordering in force, so two calls that differ in [batch_size] return
    different models.  (Under Keras 2 they return the same one.) *)
Theorem keras1_records_batch_size (w : world) (in_ch out_ch nf b1 b2 : Z)
  (is_binary : bool) (num_padded_conv : Z) (name : string) :
  KERAS_2 w = false ->
  supported (dim_ordering_ w) ->
  b1 <> b2 ->
  exists m1 m2 w1 w2,
    g_unet in_ch out_ch nf b1 is_binary num_padded_conv name w = (Ok m1, w1)
    /\ g_unet in_ch out_ch nf b2 is_binary num_padded_conv name w = (Ok m2, w2)
    /\ declared_output_shape (model_output m1)
       = Some (shape4 (dim_ordering_ w) b1 out_ch 512 512)
    /\ declared_output_shape (model_output m2)
       = Some (shape4 (dim_ordering_ w) b2 out_ch 512 512)
    /\ m1 <> m2.
Proof.
  destruct w as [K2 o so ls]. cbn [KERAS_2 dim_ordering_]. intros -> Ho Hb.
  eexists _, _, _, _.
  split; [apply run_g_unet; exact Ho|].
  split; [apply run_g_unet; exact Ho|].
  assert (D : forall b,
             declared_output_shape
               (model_output
                  (unet (frame_of false o in_ch out_ch nf b is_binary num_padded_conv name)))
             = Some (shape4 o b out_ch 512 512)) by reflexivity.
  split; [apply D|]. split; [apply D|].
  intros H. apply (f_equal (fun m => declared_output_shape (model_output m))) in H.
  rewrite !D in H. apply Hb.
  destruct Ho as [-> | ->]; now inversion H.
Qed.

Lemma keras1_records_batch_size_witness :
  exists m1 m2 w1 w2,
    g_unet 3 1 4 1 false 0 "unet" (mkWorld false "th" [] []) = (Ok m1, w1)
    /\ g_unet 3 1 4 16 false 0 "unet" (mkWorld false "th" [] []) = (Ok m2, w2)
    /\ declared_output_shape (model_output m1) = Some (shape4 "th" 1 1 512 512)
    /\ declared_output_shape (model_output m2) = Some (shape4 "th" 16 1 512 512)
    /\ m1 <> m2.
Proof.
  apply (keras1_records_batch_size (mkWorld false "th" [] []) 3 1 4 1 16 false 0 "unet");
    [reflexivity | left; reflexivity | lia].
Defined.

(** X6. The output shapes written by hand for Keras 1 are the ones the
    transposed convolutions produce: for each of the 9 decoder tensors, the
    [output_shape] recorded in the Keras 1 graph equals the shape Keras 2
    computes for the same tensor from kernel and stride, on a batch of
    [batch_size].  The Keras 2 graph records no output shape. *)
Theorem declared_shapes_agree (w1 w2 : world) (in_ch out_ch nf batch_size : Z)
  (is_binary : bool) (num_padded_conv : Z) (name : string) :
  KERAS_2 w1 = false ->
  KERAS_2 w2 = true ->
  dim_ordering_ w1 = dim_ordering_ w2 ->
  supported (dim_ordering_ w1) ->
  exists F1 F2,
    frame_at w1 in_ch out_ch nf batch_size is_binary num_padded_conv name = Some F1
    /\ frame_at w2 in_ch out_ch nf batch_size is_binary num_padded_conv name = Some F2
    /\ map declared_output_shape (decoder_stages F1)
       = map (Keras.shape_of batch_size) (decoder_stages F2)
    /\ map declared_output_shape (decoder_stages F2) = repeat None 9
    /\ Forall (fun s => s <> None) (map declared_output_shape (decoder_stages F1)).
Proof.
  destruct w1 as [K1 o so1 ls1], w2 as [K2 o2 so2 ls2].
  cbn [KERAS_2 dim_ordering_]. intros -> -> <- Ho.
  eexists _, _. unfold frame_at. rewrite !run_g_unet_frame by exact Ho.
  split; [reflexivity|]. split; [reflexivity|].
  destruct (frame_shapes true o batch_size Ho in_ch out_ch nf batch_size is_binary
              num_padded_conv name) as (_ & _ & HD & _).
  rewrite HD, declared_decoder_keras1, declared_decoder_keras2.
  split; [reflexivity|]. split; [reflexivity|].
  cbn [map]. repeat constructor; discriminate.
Qed.

Lemma declared_shapes_agree_witness :
  exists F1 F2,
    frame_at (mkWorld false "tf" [] []) 3 1 4 2 false 1 "unet" = Some F1
    /\ frame_at (mkWorld true "tf" [] []) 3 1 4 2 false 1 "unet" = Some F2
    /\ map declared_output_shape (decoder_stages F1)
       = map (Keras.shape_of 2) (decoder_stages F2)
    /\ map declared_output_shape (decoder_stages F2) = repeat None 9
    /\ Forall (fun s => s <> None) (map declared_output_shape (decoder_stages F1)).
Proof.
  apply (declared_shapes_agree (mkWorld false "tf" [] []) (mkWorld true "tf" [] [])
           3 1 4 2 false 1 "unet");
    [reflexivity | reflexivity | reflexivity | right; reflexivity].
Defined.

Section Census.

Variables (K2 : bool) (o : string).

Lemma count_padded_layers p n f :
  count_layers p (padded_layers K2 o n f)
  = (n * count_layers p (block_layers K2 o f))%nat.
Proof.
  induction n as [|n IH]; [reflexivity|].
  cbn [padded_layers]. rewrite count_layers_app, IH. lia.
Qed.

Lemma length_padded_layers n f :
  List.length (padded_layers K2 o n f) = (3 * n)%nat.
Proof.
  induction n as [|n IH]; [reflexivity|].
  cbn [padded_layers]. rewrite length_app, IH. cbn [block_layers List.length]. lia.
Qed.

Lemma census_layers_of in_ch out_ch nf batch_size is_binary num_padded_conv :
  let L := layers_of K2 o in_ch out_ch nf batch_size is_binary num_padded_conv in
  let n := Z.to_nat num_padded_conv in
  count_layers is_input L = 1%nat
  /\ count_layers is_convolution L = (9 + 16 * n)%nat
  /\ count_layers is_upsampling L = 9%nat
  /\ count_layers is_batch_norm L = (17 + 16 * n)%nat
  /\ count_layers is_leaky_relu L = (17 + 16 * n)%nat
  /\ count_layers is_dropout L = 3%nat
  /\ count_layers is_merge L = 8%nat
  /\ count_layers is_activation L = 1%nat
  /\ List.length L = (65 + 48 * n)%nat.
Proof.
  cbv zeta.
  unfold layers_of, body_layers_of, down_layers, up_layers, skip_layers.
  rewrite !count_layers_app, !count_padded_layers, !length_app, !length_padded_layers.
  destruct K2; cbn; repeat split; lia.
Qed.

Lemma Forall_padded_layers (P : layer -> Prop) n f :
  Forall P (block_layers K2 o f) -> Forall P (padded_layers K2 o n f).
Proof.
  intros H. induction n as [|n IH]; [constructor|].
  cbn [padded_layers]. apply Forall_app. split; assumption.
Qed.

Lemma layers_of_in_keeping in_ch out_ch nf batch_size is_binary num_padded_conv :
  supported o ->
  Forall (layer_in_keeping K2 o)
    (layers_of K2 o in_ch out_ch nf batch_size is_binary num_padded_conv).
Proof.
  intros Ho.
  assert (B : forall n f, Forall (layer_in_keeping K2 o) (padded_layers K2 o n f)).
  { intros n f. apply Forall_padded_layers.
    destruct Ho as [-> | ->], K2;
      repeat apply Forall_cons; try apply Forall_nil; cbn; repeat split; auto. }
  unfold layers_of, body_layers_of, down_layers, up_layers, skip_layers.
  repeat (apply Forall_app; split); try apply B;
    destruct Ho as [-> | ->], K2, is_binary;
    repeat apply Forall_cons; try apply Forall_nil; cbn; repeat split; auto.
Qed.

End Census.

(** X7. The layer objects one call creates, by kind, with
    [n = max(num_padded_conv, 0)]: 1 input, [9 + 16 n] convolutions, 9
    upsampling layers, [17 + 16 n] batch normalisations (the last
    upsampling has none), [17 + 16 n] leaky ReLUs, 3 dropouts, 8
    concatenations and 1 activation; [65 + 48 n] in all, whatever the Keras
    version and the ordering. *)
Theorem layer_census (w : world) (in_ch out_ch nf batch_size : Z)
  (is_binary : bool) (num_padded_conv : Z) (name : string) :
  supported (dim_ordering_ w) ->
  exists m w' created,
    g_unet in_ch out_ch nf batch_size is_binary num_padded_conv name w = (Ok m, w')
    /\ layers w' = (layers w ++ created)%list
    /\ count_layers is_input created = 1%nat
    /\ count_layers is_convolution created = (9 + 16 * Z.to_nat num_padded_conv)%nat
    /\ count_layers is_upsampling created = 9%nat
    /\ count_layers is_batch_norm created = (17 + 16 * Z.to_nat num_padded_conv)%nat
    /\ count_layers is_leaky_relu created = (17 + 16 * Z.to_nat num_padded_conv)%nat
    /\ count_layers is_dropout created = 3%nat
    /\ count_layers is_merge created = 8%nat
    /\ count_layers is_activation created = 1%nat
    /\ List.length created = (65 + 48 * Z.to_nat num_padded_conv)%nat.
Proof.
  destruct w as [K2 o so ls]. cbn [dim_ordering_]. intros Ho.
  eexists _, _, _.
  split; [apply run_g_unet; exact Ho|].
  split; [reflexivity|].
  apply census_layers_of.
Qed.

Lemma layer_census_witness :
  exists m w' created,
    g_unet 3 1 4 2 false 2 "unet" (mkWorld true "th" [] []) = (Ok m, w')
    /\ layers w' = (layers (mkWorld true "th" [] []) ++ created)%list
    /\ count_layers is_input created = 1%nat
    /\ count_layers is_convolution created = (9 + 16 * Z.to_nat 2)%nat
    /\ count_layers is_upsampling created = 9%nat
    /\ count_layers is_batch_norm created = (17 + 16 * Z.to_nat 2)%nat
    /\ count_layers is_leaky_relu created = (17 + 16 * Z.to_nat 2)%nat
    /\ count_layers is_dropout created = 3%nat
    /\ count_layers is_merge created = 8%nat
    /\ count_layers is_activation created = 1%nat
    /\ List.length created = (65 + 48 * Z.to_nat 2)%nat.
Proof.
  apply (layer_census (mkWorld true "th" [] []) 3 1 4 2 false 2 "unet").
  left; reflexivity.
Defined.

(** X8. Every layer object a call creates is in keeping with the state it
    was created in: each convolution and upsampling layer has a square
    kernel, stride 1 or 2 and the data layout of the ordering in force; the
    upsampling layers are [Conv2DTranspose] under Keras 2 and
    [Deconvolution2D] under Keras 1, with kernel 2 and padding ['valid'],
    and a recorded output shape whose channel entry is the layer's filter
    count; every batch normalisation is on axis 1; every leaky ReLU has
    slope 0.2 and every dropout rate 0.5; every concatenation is along the
    channel axis, and is a [Merge] in mode ['concat'] under Keras 1. *)
Theorem created_layers_in_keeping (w : world) (in_ch out_ch nf batch_size : Z)
  (is_binary : bool) (num_padded_conv : Z) (name : string) :
  supported (dim_ordering_ w) ->
  exists m w' created,
    g_unet in_ch out_ch nf batch_size is_binary num_padded_conv name w = (Ok m, w')
    /\ layers w' = (layers w ++ created)%list
    /\ Forall (layer_in_keeping (KERAS_2 w) (dim_ordering_ w)) created.
Proof.
  destruct w as [K2 o so ls]. cbn [KERAS_2 dim_ordering_]. intros Ho.
  eexists _, _, _.
  split; [apply run_g_unet; exact Ho|].
  split; [reflexivity|].
  now apply layers_of_in_keeping.
Qed.

Lemma created_layers_in_keeping_witness :
  exists m w' created,
    g_unet 3 1 4 2 true 1 "unet" (mkWorld false "tf" [] []) = (Ok m, w')
    /\ layers w' = (layers (mkWorld false "tf" [] []) ++ created)%list
    /\ Forall (layer_in_keeping false "tf") created.
Proof.
  apply (created_layers_in_keeping (mkWorld false "tf" [] []) 3 1 4 2 true 1 "unet").
  right; reflexivity.
Defined.

(** X9. Batch normalisation is always on axis 1, also under ['tf']: there
    axis 1 is the height of the tensor, while the channels, which the
    concatenations of the same graph use, are on axis 3.  Under ['th'] axis
    1 is the channel axis. *)
Theorem batch_norm_axis (w : world) (in_ch out_ch nf batch_size : Z)
  (is_binary : bool) (num_padded_conv : Z) (name : string) :
  supported (dim_ordering_ w) ->
  exists m w' created,
    g_unet in_ch out_ch nf batch_size is_binary num_padded_conv name w = (Ok m, w')
    /\ layers w' = (layers w ++ created)%list
    /\ (forall mode axis,
          In (BatchNormalization mode axis) created ->
          axis = 1
          /\ (dim_ordering_ w = "th" -> axis = channel_axis (dim_ordering_ w))
          /\ (dim_ordering_ w = "tf" -> axis <> channel_axis (dim_ordering_ w)))
    /\ (forall l axis,
          In l created -> merge_axis l = Some axis ->
          axis = channel_axis (dim_ordering_ w))
    /\ (exists mode, In (BatchNormalization mode 1) created).
Proof.
  destruct w as [K2 o so ls]. cbn [KERAS_2 dim_ordering_]. intros Ho.
  eexists _, _, _.
  split; [apply run_g_unet; exact Ho|].
  split; [reflexivity|].
  pose proof (layers_of_in_keeping K2 o in_ch out_ch nf batch_size is_binary
                num_padded_conv Ho) as HF.
  rewrite Forall_forall in HF.
  split; [|split].
  - intros mode axis Hin. apply HF in Hin. destruct Hin as [-> _].
    split; [reflexivity|]. split; intros ->; [reflexivity | discriminate].
  - intros l axis Hin Hax. apply HF in Hin.
    destruct l; try discriminate; cbn in Hax, Hin; injection Hax as <-; tauto.
  - exists (if K2 then None else Some 2).
    unfold layers_of, body_layers_of, down_layers.
    apply in_or_app. left. apply in_or_app. right.
    apply in_or_app. left. right. left. reflexivity.
Qed.

Lemma batch_norm_axis_witness :
  exists m w' created,
    g_unet 3 1 4 2 false 0 "unet" (mkWorld true "tf" [] []) = (Ok m, w')
    /\ layers w' = (layers (mkWorld true "tf" [] []) ++ created)%list
    /\ (forall mode axis,
          In (BatchNormalization mode axis) created ->
          axis = 1
          /\ ("tf" = "th" -> axis = channel_axis "tf")
          /\ ("tf" = "tf" -> axis <> channel_axis "tf"))
    /\ (forall l axis,
          In l created -> merge_axis l = Some axis -> axis = channel_axis "tf")
    /\ (exists mode, In (BatchNormalization mode 1) created).
Proof.
  apply (batch_norm_axis (mkWorld true "tf" [] []) 3 1 4 2 false 0 "unet").
  right; reflexivity.
Defined.

Section DecoderInputs.

Variables (K2 : bool) (o : string) (b : Z).
Hypothesis Ho : supported o.

Lemma input_channels_up dr f os k s n f' d c c1 c2 h v :
  Keras.shape_of b d = Some (shape4 o b c1 h v) ->
  Keras.shape_of b c = Some (shape4 o b c2 h v) ->
  input_channels_of o b (up K2 o dr f os k s (skip K2 o n f' d c))
  = Some (padded_channels n f' (c1 + c2)).
Proof.
  intros Hd Hc. unfold input_channels_of. rewrite upsample_input_up.
  apply channels_of_shape with (h := h) (v := v); [exact Ho|].
  now apply shape_skip.
Qed.

Lemma input_channels_deconv f os k s n f' d c c1 c2 h v :
  Keras.shape_of b d = Some (shape4 o b c1 h v) ->
  Keras.shape_of b c = Some (shape4 o b c2 h v) ->
  input_channels_of o b (Call (deconv_layer K2 o f os k s) [skip K2 o n f' d c])
  = Some (padded_channels n f' (c1 + c2)).
Proof.
  intros Hd Hc. unfold input_channels_of. rewrite upsample_input_deconv.
  apply channels_of_shape with (h := h) (v := v); [exact Ho|].
  now apply shape_skip.
Qed.

Lemma input_channels_frame in_ch out_ch nf batch_size is_binary num_padded_conv name :
  map (input_channels_of o b)
    (decoder_stages
       (frame_of K2 o in_ch out_ch nf batch_size is_binary num_padded_conv name))
  = Some (nf * 8)
    :: map (fun f => Some (padded_channels (Z.to_nat num_padded_conv) f (f + f)))
         [nf * 8; nf * 8; nf * 8; nf * 8; nf * 8; nf * 4; nf * 2; nf].
Proof.
  destruct (frame_shapes K2 o b Ho in_ch out_ch nf batch_size is_binary
              num_padded_conv name) as (_ & HE & HD & _).
  unfold encoder_stages, decoder_stages in HE, HD. cbn [map] in HE, HD.
  injection HE as E1 E2 E3 E4 E5 E6 E7 E8 E9.
  injection HD as D1 D2 D3 D4 D5 D6 D7 D8 D9.
  unfold decoder_stages. cbn [map].
  f_equal.
  { unfold input_channels_of.
    change (upsample_input
              (dconv1 (frame_of K2 o in_ch out_ch nf batch_size is_binary
                         num_padded_conv name)))
      with (upsample_input
              (up K2 o true (nf * 8) (deconv_shape_of o batch_size (nf * 8) 2 2) 2 1
                 (Call (LeakyReLU 0.2)
                    [conv9 (frame_of K2 o in_ch out_ch nf batch_size is_binary
                              num_padded_conv name)]))).
    rewrite upsample_input_up.
    apply channels_of_shape with (h := 1) (v := 1); [exact Ho|].
    apply shape_LeakyReLU. exact E9. }
  f_equal; [eapply input_channels_up; [exact D1 | exact E8]|].
  f_equal; [eapply input_channels_up; [exact D2 | exact E7]|].
  f_equal; [eapply input_channels_up; [exact D3 | exact E6]|].
  f_equal; [eapply input_channels_up; [exact D4 | exact E5]|].
  f_equal; [eapply input_channels_up; [exact D5 | exact E4]|].
  f_equal; [eapply input_channels_up; [exact D6 | exact E3]|].
  f_equal; [eapply input_channels_up; [exact D7 | exact E2]|].
  f_equal. eapply input_channels_deconv; [exact D8 | exact E1].
Qed.

End DecoderInputs.

(** X10. The refinement blocks of the decoder change the channel count.
    Without them ([num_padded_conv <= 0]) the upsampling layers of [dconv2]
    to [dconv9] read the concatenations as they are, with [nf] times 16,
    16, 16, 16, 16, 8, 4 and 2 channels; with at least one block they read
    [nf] times 8, 8, 8, 8, 8, 4, 2 and 1 channels, half as many.  The
    upsampling layer of [dconv1] always reads [nf * 8]. *)
Theorem decoder_input_channels (w : world) (b in_ch out_ch nf batch_size : Z)
  (is_binary : bool) (num_padded_conv : Z) (name : string) :
  supported (dim_ordering_ w) ->
  exists F w',
    g_unet_frame in_ch out_ch nf batch_size is_binary num_padded_conv name w = (Ok F, w')
    /\ map (input_channels_of (dim_ordering_ w) b) (decoder_stages F)
       = map (fun m => Some (nf * m))
           (if num_padded_conv <=? 0 then [8; 16; 16; 16; 16; 16; 8; 4; 2]
            else [8; 8; 8; 8; 8; 8; 4; 2; 1]).
Proof.
  destruct w as [K2 o so ls]. cbn [dim_ordering_]. intros Ho.
  eexists _, _. split; [apply run_g_unet_frame; exact Ho|].
  rewrite (input_channels_frame K2 o b Ho).
  destruct (Z.leb_spec num_padded_conv 0) as [Hn | Hn].
  - replace (Z.to_nat num_padded_conv) with O by lia.
    cbn [map padded_channels]. repeat (f_equal; try lia).
  - destruct (Z.to_nat num_padded_conv) as [|n'] eqn:En; [lia|].
    cbn [map padded_channels]. repeat (f_equal; try lia).
Qed.

Lemma decoder_input_channels_witness :
  exists F w',
    g_unet_frame 3 1 4 2 false 1 "unet" (mkWorld true "th" [] []) = (Ok F, w')
    /\ map (input_channels_of "th" 2) (decoder_stages F)
       = map (fun m => Some (4 * m))
           (if 1 <=? 0 then [8; 16; 16; 16; 16; 16; 8; 4; 2]
            else [8; 8; 8; 8; 8; 8; 4; 2; 1]).
Proof.
  apply (decoder_input_channels (mkWorld true "th" [] []) 2 3 1 4 2 false 1 "unet").
  left; reflexivity.
Defined.

(** X11. [padded_conv] on a tensor of [c] channels and size [h] by [v]:
    it returns a tensor of the same size under [max(num_padded_conv, 0)]
    more refinement blocks, with [f] channels as soon as there is one block
    and [c] channels when there is none; it creates three layer objects per
    block and touches nothing else in the state. *)
Theorem padded_conv_effect (w : world) (num_padded_conv f : Z) (x : tensor)
  (b c h v : Z) :
  supported (dim_ordering_ w) ->
  Keras.shape_of b x = Some (shape4 (dim_ordering_ w) b c h v) ->
  exists y w',
    padded_conv num_padded_conv f x w = (Ok y, w')
    /\ Keras.shape_of b y
       = Some (shape4 (dim_ordering_ w) b (if num_padded_conv <=? 0 then c else f) h v)
    /\ refinement_blocks y = (Z.to_nat num_padded_conv + refinement_blocks x)%nat
    /\ (exists created,
          layers w' = (layers w ++ created)%list
          /\ List.length created = (3 * Z.to_nat num_padded_conv)%nat
          /\ count_layers is_refinement_conv created = Z.to_nat num_padded_conv)
    /\ KERAS_2 w' = KERAS_2 w
    /\ dim_ordering_ w' = dim_ordering_ w
    /\ stdout w' = stdout w.
Proof.
  destruct w as [K2 o so ls]. cbn [KERAS_2 dim_ordering_ stdout layers].
  intros Ho Hx.
  eexists _, _. split; [apply run_padded_conv|].
  split.
  { rewrite (shape_padded K2 o b Ho _ _ f c h v Hx).
    destruct (Z.leb_spec num_padded_conv 0) as [Hn | Hn].
    - now replace (Z.to_nat num_padded_conv) with O by lia.
    - destruct (Z.to_nat num_padded_conv) eqn:En; [lia | reflexivity]. }
  split; [apply refinement_blocks_padded|].
  split.
  { eexists. split; [reflexivity|].
    split; [apply length_padded_layers | apply count_refinement_padded]. }
  repeat split.
Qed.

Lemma padded_conv_effect_witness :
  exists y w',
    padded_conv 2 8 (Placeholder [3; 512; 512]) (mkWorld true "th" [] []) = (Ok y, w')
    /\ Keras.shape_of 1 y = Some (shape4 "th" 1 (if 2 <=? 0 then 3 else 8) 512 512)
    /\ refinement_blocks y
       = (Z.to_nat 2 + refinement_blocks (Placeholder [3; 512; 512]%Z))%nat
    /\ (exists created,
          layers w' = (layers (mkWorld true "th" [] []) ++ created)%list
          /\ List.length created = (3 * Z.to_nat 2)%nat
          /\ count_layers is_refinement_conv created = Z.to_nat 2)
    /\ KERAS_2 w' = true
    /\ dim_ordering_ w' = "th"
    /\ stdout w' = [].
Proof.
  apply (padded_conv_effect (mkWorld true "th" [] []) 2 8 (Placeholder [3; 512; 512])
           1 3 512 512);
    [left; reflexivity | reflexivity].
Defined.

Section Chain.

Variables (K2 : bool) (o : string).

Lemma stage_source_padded n f x :
  stage_source (padded K2 o n f x) = stage_source x.
Proof.
  revert x. induction n as [|n IH]; intros x; [reflexivity|].
  cbn [padded]. rewrite IH. reflexivity.
Qed.

Lemma stage_source_down n f x : stage_source (down K2 o n f x) = Some x.
Proof. unfold down. rewrite stage_source_padded. reflexivity. Qed.

End Chain.

(** X13. After the import, [KERAS_2] is true exactly when the version
    string starts with ['2'] and the Keras 2 layers could be imported; the
    fallback message is printed exactly when they could not; the ordering
    is ['th'] and no layer object has been created. *)
Theorem module_import_effect (version : string) (importable : bool) (w : world) :
  module_import version importable w
  = (Ok tt,
     mkWorld (first_char_is_2 version && importable) "th"
       (stdout w
          ++ (if importable then []
              else ["Keras 2 layers could not be imported defaulting to keras1"]))
       (layers w)).
Proof.
  destruct importable; cbn.
  - now rewrite andb_true_r, app_nil_r.
  - now rewrite andb_false_r.
Qed.

(** ** The main path of the graph *)

Section MainPath.

Variables (K2 : bool) (o : string).

Lemma root_padded n f x : root (padded K2 o n f x) = root x.
Proof.
  revert x. induction n as [|n IH]; intros x; [reflexivity|].
  cbn [padded]. rewrite IH. reflexivity.
Qed.

Lemma root_down n f x : root (down K2 o n f x) = root x.
Proof. unfold down. rewrite root_padded. reflexivity. Qed.

Lemma root_up dr f os k s x : root (up K2 o dr f os k s x) = root x.
Proof. destruct dr; reflexivity. Qed.

Lemma root_skip n f d c : root (skip K2 o n f d c) = root d.
Proof. unfold skip. rewrite root_padded. reflexivity. Qed.

Lemma transforms_padded n f x : transforms (padded K2 o n f x) = transforms x.
Proof.
  revert x. induction n as [|n IH]; intros x; [reflexivity|].
  cbn [padded]. rewrite IH. unfold block, bn_layer, conv_layer.
  cbn. now rewrite !app_nil_r.
Qed.

Lemma transforms_down n f x :
  transforms (down K2 o n f x)
  = (transforms x ++ [transform_of (conv_layer K2 o f 3 2 same) x])%list.
Proof.
  unfold down. rewrite transforms_padded. unfold bn_layer, conv_layer.
  cbn. now rewrite !app_nil_r.
Qed.

Lemma transforms_bottleneck f x :
  transforms (Call (LeakyReLU 0.2)
                [Call (bn_layer K2) [Call (conv_layer K2 o f 2 1 valid) [x]]])
  = (transforms x ++ [transform_of (conv_layer K2 o f 2 1 valid) x])%list.
Proof. unfold bn_layer, conv_layer. cbn. now rewrite !app_nil_r. Qed.

Lemma transforms_deconv f os k s x :
  transforms (Call (deconv_layer K2 o f os k s) [x])
  = (transforms x ++ [transform_of (deconv_layer K2 o f os k s) x])%list.
Proof. destruct K2; reflexivity. Qed.

Lemma transforms_up dr f os k s x :
  transforms (up K2 o dr f os k s x)
  = (transforms x ++ [transform_of (deconv_layer K2 o f os k s) x])%list.
Proof.
  unfold up. destruct dr.
  - cbn [transforms]. unfold bn_layer at 1.
    cbn [is_stage_transform is_convolution is_upsampling is_refinement_conv andb orb negb].
    rewrite !app_nil_r. apply transforms_deconv.
  - cbn [transforms]. unfold bn_layer at 1.
    cbn [is_stage_transform is_convolution is_upsampling is_refinement_conv andb orb negb].
    rewrite !app_nil_r. apply transforms_deconv.
Qed.

Lemma transforms_skip n f d c : transforms (skip K2 o n f d c) = transforms d.
Proof.
  unfold skip. rewrite transforms_padded. destruct K2; cbn; now rewrite !app_nil_r.
Qed.

Lemma blocks_after_padded n f x a :
  blocks_after (padded K2 o n f x) a = blocks_after x (n + a).
Proof.
  revert a. induction n as [|n IH]; intros a; [reflexivity|].
  rewrite padded_outer. unfold block, bn_layer, conv_layer. cbn.
  rewrite IH. f_equal. lia.
Qed.

Lemma blocks_after_down n f x a :
  blocks_after (down K2 o n f x) a = (blocks_after x O ++ [(n + a)%nat])%list.
Proof.
  unfold down. rewrite blocks_after_padded. reflexivity.
Qed.

Lemma blocks_after_bottleneck f x a :
  blocks_after (Call (LeakyReLU 0.2)
                  [Call (bn_layer K2) [Call (conv_layer K2 o f 2 1 valid) [x]]]) a
  = (blocks_after x O ++ [a])%list.
Proof. reflexivity. Qed.

Lemma blocks_after_deconv f os k s x a :
  blocks_after (Call (deconv_layer K2 o f os k s) [x]) a
  = (blocks_after x O ++ [a])%list.
Proof. destruct K2; reflexivity. Qed.

Lemma blocks_after_up dr f os k s x a :
  blocks_after (up K2 o dr f os k s x) a = (blocks_after x O ++ [a])%list.
Proof. destruct dr, K2; reflexivity. Qed.

Lemma blocks_after_skip n f d c a :
  blocks_after (skip K2 o n f d c) a = blocks_after d (n + a).
Proof.
  unfold skip. rewrite blocks_after_padded. destruct K2; reflexivity.
Qed.

Lemma placeholders_padded n f x :
  Keras.placeholders (padded K2 o n f x) = Keras.placeholders x.
Proof.
  revert x. induction n as [|n IH]; intros x; [reflexivity|].
  cbn [padded]. rewrite IH. cbn. now rewrite !app_nil_r.
Qed.

Lemma placeholders_down n f x :
  Keras.placeholders (down K2 o n f x) = Keras.placeholders x.
Proof. unfold down. rewrite placeholders_padded. cbn. now rewrite !app_nil_r. Qed.

Lemma placeholders_up dr f os k s x :
  Keras.placeholders (up K2 o dr f os k s x) = Keras.placeholders x.
Proof. destruct dr; cbn; now rewrite !app_nil_r. Qed.

Lemma placeholders_skip n f d c :
  Keras.placeholders (skip K2 o n f d c)
  = (Keras.placeholders d ++ Keras.placeholders c)%list.
Proof. unfold skip. rewrite placeholders_padded. cbn. now rewrite !app_nil_r. Qed.

Lemma placeholders_call l x :
  Keras.placeholders (Call l [x]) = Keras.placeholders x.
Proof. cbn. now rewrite app_nil_r. Qed.

End MainPath.

Section FramePath.

Variables (K2 : bool) (o : string).
Variables (in_ch out_ch nf batch_size : Z) (is_binary : bool)
  (num_padded_conv : Z) (name : string).

Abbreviation F :=
  (frame_of K2 o in_ch out_ch nf batch_size is_binary num_padded_conv name).
Abbreviation n := (Z.to_nat num_padded_conv).
Abbreviation cv := (conv_layer K2 o).
Abbreviation dcv := (deconv_layer K2 o).
Abbreviation gds := (deconv_shape_of o batch_size).

Lemma root_frame : root (out F) = i F.
Proof.
  unfold frame_of.
  cbn [out i root].
  repeat first [rewrite root_skip | rewrite root_up | rewrite root_down | progress cbn [root]].
  reflexivity.
Qed.

Lemma transforms_frame :
  transforms (out F)
  = [transform_of (cv nf 3 2 same) (i F);
     transform_of (cv (nf * 2) 3 2 same) (conv1 F);
     transform_of (cv (nf * 4) 3 2 same) (conv2 F);
     transform_of (cv (nf * 8) 3 2 same) (conv3 F);
     transform_of (cv (nf * 8) 3 2 same) (conv4 F);
     transform_of (cv (nf * 8) 3 2 same) (conv5 F);
     transform_of (cv (nf * 8) 3 2 same) (conv6 F);
     transform_of (cv (nf * 8) 3 2 same) (conv7 F);
     transform_of (cv (nf * 8) 2 1 valid) (conv8 F);
     transform_of (dcv (nf * 8) (gds (nf * 8) 2 2) 2 1) (Call (LeakyReLU 0.2) [conv9 F]);
     transform_of (dcv (nf * 8) (gds (nf * 8) 4 4) 2 2)
       (skip K2 o n (nf * 8) (dconv1 F) (conv8 F));
     transform_of (dcv (nf * 8) (gds (nf * 8) 8 8) 2 2)
       (skip K2 o n (nf * 8) (dconv2 F) (conv7 F));
     transform_of (dcv (nf * 8) (gds (nf * 8) 16 16) 2 2)
       (skip K2 o n (nf * 8) (dconv3 F) (conv6 F));
     transform_of (dcv (nf * 8) (gds (nf * 8) 32 32) 2 2)
       (skip K2 o n (nf * 8) (dconv4 F) (conv5 F));
     transform_of (dcv (nf * 4) (gds (nf * 4) 64 64) 2 2)
       (skip K2 o n (nf * 8) (dconv5 F) (conv4 F));
     transform_of (dcv (nf * 2) (gds (nf * 2) 128 128) 2 2)
       (skip K2 o n (nf * 4) (dconv6 F) (conv3 F));
     transform_of (dcv nf (gds nf 256 256) 2 2)
       (skip K2 o n (nf * 2) (dconv7 F) (conv2 F));
     transform_of (dcv out_ch (gds out_ch 512 512) 2 2)
       (skip K2 o n nf (dconv8 F) (conv1 F))].
Proof.
  unfold frame_of.
  cbn [out i conv1 conv2 conv3 conv4 conv5 conv6 conv7 conv8 conv9
         dconv1 dconv2 dconv3 dconv4 dconv5 dconv6 dconv7 dconv8].
  change (transforms (Call (Activation ?a) [?x])) with (transforms x ++ [])%list.
  rewrite app_nil_r, transforms_deconv.
  repeat first
    [ rewrite transforms_skip | rewrite transforms_up
    | rewrite transforms_bottleneck | rewrite transforms_down ].
  reflexivity.
Qed.

Lemma blocks_after_frame :
  blocks_after (out F) O = (repeat n 8 ++ [O] ++ repeat n 8 ++ [O])%list.
Proof.
  unfold frame_of. cbn [out].
  change (blocks_after (Call (Activation ?a) [?x]) O) with (blocks_after x O).
  rewrite blocks_after_deconv.
  repeat first
    [ rewrite blocks_after_skip | rewrite blocks_after_up
    | rewrite blocks_after_bottleneck | rewrite blocks_after_down ].
  rewrite !Nat.add_0_r. reflexivity.
Qed.

Lemma placeholders_frame :
  Keras.placeholders (out F) = repeat (input_shape_of o in_ch) 9.
Proof.
  unfold frame_of. cbn [out].
  rewrite placeholders_call.
  unfold deconv_layer at 1.
  repeat first
    [ rewrite placeholders_call
    | rewrite placeholders_skip
    | rewrite placeholders_up
    | rewrite placeholders_down ].
  reflexivity.
Qed.

End FramePath.

Section PathShapes.

Variables (K2 : bool) (o : string) (b : Z).
Hypothesis Ho : supported o.

Lemma summary_conv x c h v f k s bm :
  Keras.shape_of b x = Some (shape4 o b c h v) ->
  transform_summary o b (transform_of (conv_layer K2 o f k s bm) x)
  = (false, Some (h, v),
     Some (shape4 o b f (Keras.conv_output_length h k bm s)
             (Keras.conv_output_length v k bm s))).
Proof.
  intros H. unfold transform_summary, transform_of.
  rewrite (spatial_of_shape _ _ _ _ _ _ Ho H), (shape_conv K2 o b Ho _ _ _ _ f k s bm H).
  reflexivity.
Qed.

Lemma summary_deconv x c h v f bs r r' k s :
  Keras.shape_of b x = Some (shape4 o b c h v) ->
  Keras.deconv_length h s k valid = r ->
  Keras.deconv_length v s k valid = r' ->
  transform_summary o b
    (transform_of (deconv_layer K2 o f (deconv_shape_of o bs f r r') k s) x)
  = (true, Some (h, v), Some (shape4 o b f r r')).
Proof.
  intros H Hr Hr'. unfold transform_summary, transform_of.
  rewrite (spatial_of_shape _ _ _ _ _ _ Ho H),
    (shape_deconv K2 o b Ho _ _ _ _ f bs _ _ k s H Hr Hr').
  destruct K2; reflexivity.
Qed.

Variables (in_ch out_ch nf batch_size : Z) (is_binary : bool)
  (num_padded_conv : Z) (name : string).

Abbreviation F :=
  (frame_of K2 o in_ch out_ch nf batch_size is_binary num_padded_conv name).
Abbreviation sh := (shape4 o b).

Lemma summary_frame :
  map (transform_summary o b) (transforms (out F))
  = [(false, Some (512, 512), Some (sh nf 256 256));
     (false, Some (256, 256), Some (sh (nf * 2) 128 128));
     (false, Some (128, 128), Some (sh (nf * 4) 64 64));
     (false, Some (64, 64), Some (sh (nf * 8) 32 32));
     (false, Some (32, 32), Some (sh (nf * 8) 16 16));
     (false, Some (16, 16), Some (sh (nf * 8) 8 8));
     (false, Some (8, 8), Some (sh (nf * 8) 4 4));
     (false, Some (4, 4), Some (sh (nf * 8) 2 2));
     (false, Some (2, 2), Some (sh (nf * 8) 1 1));
     (true, Some (1, 1), Some (sh (nf * 8) 2 2));
     (true, Some (2, 2), Some (sh (nf * 8) 4 4));
     (true, Some (4, 4), Some (sh (nf * 8) 8 8));
     (true, Some (8, 8), Some (sh (nf * 8) 16 16));
     (true, Some (16, 16), Some (sh (nf * 8) 32 32));
     (true, Some (32, 32), Some (sh (nf * 4) 64 64));
     (true, Some (64, 64), Some (sh (nf * 2) 128 128));
     (true, Some (128, 128), Some (sh nf 256 256));
     (true, Some (256, 256), Some (sh out_ch 512 512))].
Proof.
  destruct (frame_shapes K2 o b Ho in_ch out_ch nf batch_size is_binary
              num_padded_conv name) as (HI & HE & HD & _).
  unfold encoder_stages, decoder_stages in HE, HD. cbn [map] in HE, HD.
  injection HE as E1 E2 E3 E4 E5 E6 E7 E8 E9.
  injection HD as D1 D2 D3 D4 D5 D6 D7 D8 D9.
  assert (X9 : Keras.shape_of b (Call (LeakyReLU 0.2) [conv9 F])
               = Some (sh (nf * 8) 1 1))
    by (apply shape_LeakyReLU; exact E9).
  assert (X1 : Keras.shape_of b
                 (skip K2 o (Z.to_nat num_padded_conv) (nf * 8) (dconv1 F) (conv8 F))
               = Some (sh (padded_channels (Z.to_nat num_padded_conv) (nf * 8)
                             (nf * 8 + nf * 8)) 2 2))
    by (apply shape_skip; [exact Ho | exact D1 | exact E8]).
  assert (X2 : Keras.shape_of b
                 (skip K2 o (Z.to_nat num_padded_conv) (nf * 8) (dconv2 F) (conv7 F))
               = Some (sh (padded_channels (Z.to_nat num_padded_conv) (nf * 8)
                             (nf * 8 + nf * 8)) 4 4))
    by (apply shape_skip; [exact Ho | exact D2 | exact E7]).
  assert (X3 : Keras.shape_of b
                 (skip K2 o (Z.to_nat num_padded_conv) (nf * 8) (dconv3 F) (conv6 F))
               = Some (sh (padded_channels (Z.to_nat num_padded_conv) (nf * 8)
                             (nf * 8 + nf * 8)) 8 8))
    by (apply shape_skip; [exact Ho | exact D3 | exact E6]).
  assert (X4 : Keras.shape_of b
                 (skip K2 o (Z.to_nat num_padded_conv) (nf * 8) (dconv4 F) (conv5 F))
               = Some (sh (padded_channels (Z.to_nat num_padded_conv) (nf * 8)
                             (nf * 8 + nf * 8)) 16 16))
    by (apply shape_skip; [exact Ho | exact D4 | exact E5]).
  assert (X5 : Keras.shape_of b
                 (skip K2 o (Z.to_nat num_padded_conv) (nf * 8) (dconv5 F) (conv4 F))
               = Some (sh (padded_channels (Z.to_nat num_padded_conv) (nf * 8)
                             (nf * 8 + nf * 8)) 32 32))
    by (apply shape_skip; [exact Ho | exact D5 | exact E4]).
  assert (X6 : Keras.shape_of b
                 (skip K2 o (Z.to_nat num_padded_conv) (nf * 4) (dconv6 F) (conv3 F))
               = Some (sh (padded_channels (Z.to_nat num_padded_conv) (nf * 4)
                             (nf * 4 + nf * 4)) 64 64))
    by (apply shape_skip; [exact Ho | exact D6 | exact E3]).
  assert (X7 : Keras.shape_of b
                 (skip K2 o (Z.to_nat num_padded_conv) (nf * 2) (dconv7 F) (conv2 F))
               = Some (sh (padded_channels (Z.to_nat num_padded_conv) (nf * 2)
                             (nf * 2 + nf * 2)) 128 128))
    by (apply shape_skip; [exact Ho | exact D7 | exact E2]).
  assert (X8 : Keras.shape_of b
                 (skip K2 o (Z.to_nat num_padded_conv) (nf) (dconv8 F) (conv1 F))
               = Some (sh (padded_channels (Z.to_nat num_padded_conv) (nf)
                             (nf + nf)) 256 256))
    by (apply shape_skip; [exact Ho | exact D8 | exact E1]).
  rewrite transforms_frame. cbn [map].
  f_equal; [eapply summary_conv; exact HI|].
  f_equal; [eapply summary_conv; exact E1|].
  f_equal; [eapply summary_conv; exact E2|].
  f_equal; [eapply summary_conv; exact E3|].
  f_equal; [eapply summary_conv; exact E4|].
  f_equal; [eapply summary_conv; exact E5|].
  f_equal; [eapply summary_conv; exact E6|].
  f_equal; [eapply summary_conv; exact E7|].
  f_equal; [eapply summary_conv; exact E8|].
  f_equal; [eapply summary_deconv; [exact X9 | reflexivity | reflexivity]|].
  f_equal; [eapply summary_deconv; [exact X1 | reflexivity | reflexivity]|].
  f_equal; [eapply summary_deconv; [exact X2 | reflexivity | reflexivity]|].
  f_equal; [eapply summary_deconv; [exact X3 | reflexivity | reflexivity]|].
  f_equal; [eapply summary_deconv; [exact X4 | reflexivity | reflexivity]|].
  f_equal; [eapply summary_deconv; [exact X5 | reflexivity | reflexivity]|].
  f_equal; [eapply summary_deconv; [exact X6 | reflexivity | reflexivity]|].
  f_equal; [eapply summary_deconv; [exact X7 | reflexivity | reflexivity]|].
  f_equal. eapply summary_deconv; [exact X8 | reflexivity | reflexivity].
Qed.

Lemma connected_frame : Keras.connected (unet F) = true.
Proof.
  unfold Keras.connected.
  change (model_input (unet F)) with (Placeholder (input_shape_of o in_ch)).
  change (model_output (unet F)) with (out F).
  rewrite placeholders_frame. cbn [repeat forallb].
  rewrite shape_eqb_refl. reflexivity.
Qed.

Lemma predict_shape_frame :
  Keras.predict_shape (unet F) (shape4 o b in_ch 512 512)
  = Some (shape4 o b out_ch 512 512).
Proof.
  destruct (frame_shapes K2 o b Ho in_ch out_ch nf batch_size is_binary
              num_padded_conv name) as (_ & _ & _ & HO).
  unfold Keras.predict_shape. rewrite connected_frame.
  change (model_input (unet F)) with (Placeholder (input_shape_of o in_ch)).
  change (model_output (unet F)) with (out F).
  destruct Ho as [-> | ->].
  - change (shape4 "th" b in_ch 512 512) with [b; in_ch; 512; 512].
    change (input_shape_of "th" in_ch) with [in_ch; 512; 512].
    cbv beta iota. rewrite shape_eqb_refl. exact HO.
  - change (shape4 "tf" b in_ch 512 512) with [b; 512; 512; in_ch].
    change (input_shape_of "tf" in_ch) with [512; 512; in_ch].
    cbv beta iota. rewrite shape_eqb_refl. exact HO.
Qed.

End PathShapes.

Lemma upsample_call_up (K2 : bool) (o : string) dr f os k s x :
  upsample_call (up K2 o dr f os k s x) = Some (Call (deconv_layer K2 o f os k s) [x]).
Proof. destruct dr, K2; reflexivity. Qed.

Lemma upsample_call_deconv (K2 : bool) (o : string) f os k s x :
  upsample_call (Call (deconv_layer K2 o f os k s) [x])
  = Some (Call (deconv_layer K2 o f os k s) [x]).
Proof. destruct K2; reflexivity. Qed.

Lemma stages_on_path_frame (K2 : bool) (o : string) (in_ch out_ch nf batch_size : Z)
  (is_binary : bool) (num_padded_conv : Z) (name : string) :
  stages_on_path
    (frame_of K2 o in_ch out_ch nf batch_size is_binary num_padded_conv name).
Proof.
  unfold stages_on_path. rewrite transforms_frame, root_frame.
  split; [reflexivity|]. split; [|repeat split].
  unfold decoder_stages, frame_of.
  cbn [map skipn dconv1 dconv2 dconv3 dconv4 dconv5 dconv6 dconv7 dconv8 dconv9].
  rewrite !upsample_call_up, upsample_call_deconv. reflexivity.
Qed.

(** ** The claims on the whole graph *)

(** C1. With a supported ordering and positive [in_ch], [out_ch], [nf] and
    [batch_size], [g_unet] returns a model that takes an input of shape
    (batch_size, in_ch, 512, 512) to an output of shape
    (batch_size, out_ch, 512, 512), both read in the ordering in force.  The
    output is computed from the input and from nothing else, through 18
    stage transforms on its main path: 9 convolutions, then 9 upsampling
    layers, whose input sizes and output shapes are the ones listed; the
    encoder and decoder tensors of the frame are the tensors these
    transforms read and give, and each has a shape. *)
Theorem g_unet_output_shape (w : world) (in_ch out_ch nf batch_size : Z)
  (is_binary : bool) (num_padded_conv : Z) (name : string) :
  supported (dim_ordering_ w) ->
  0 < in_ch -> 0 < out_ch -> 0 < nf -> 0 < batch_size ->
  exists F w',
    g_unet_frame in_ch out_ch nf batch_size is_binary num_padded_conv name w = (Ok F, w')
    /\ g_unet in_ch out_ch nf batch_size is_binary num_padded_conv name w
       = (Ok (unet F), w')
    /\ Keras.predict_shape (unet F) (shape4 (dim_ordering_ w) batch_size in_ch 512 512)
       = Some (shape4 (dim_ordering_ w) batch_size out_ch 512 512)
    /\ Keras.connected (unet F) = true
    /\ root (model_output (unet F)) = model_input (unet F)
    /\ Keras.shape_of batch_size (model_input (unet F))
       = Some (shape4 (dim_ordering_ w) batch_size in_ch 512 512)
    /\ map (transform_summary (dim_ordering_ w) batch_size)
         (transforms (model_output (unet F)))
       = (let sh := shape4 (dim_ordering_ w) batch_size in
          [(false, Some (512, 512), Some (sh nf 256 256));
           (false, Some (256, 256), Some (sh (nf * 2) 128 128));
           (false, Some (128, 128), Some (sh (nf * 4) 64 64));
           (false, Some (64, 64), Some (sh (nf * 8) 32 32));
           (false, Some (32, 32), Some (sh (nf * 8) 16 16));
           (false, Some (16, 16), Some (sh (nf * 8) 8 8));
           (false, Some (8, 8), Some (sh (nf * 8) 4 4));
           (false, Some (4, 4), Some (sh (nf * 8) 2 2));
           (false, Some (2, 2), Some (sh (nf * 8) 1 1));
           (true, Some (1, 1), Some (sh (nf * 8) 2 2));
           (true, Some (2, 2), Some (sh (nf * 8) 4 4));
           (true, Some (4, 4), Some (sh (nf * 8) 8 8));
           (true, Some (8, 8), Some (sh (nf * 8) 16 16));
           (true, Some (16, 16), Some (sh (nf * 8) 32 32));
           (true, Some (32, 32), Some (sh (nf * 4) 64 64));
           (true, Some (64, 64), Some (sh (nf * 2) 128 128));
           (true, Some (128, 128), Some (sh nf 256 256));
           (true, Some (256, 256), Some (sh out_ch 512 512))])
    /\ stages_on_path F
    /\ Forall (fun t => exists c h v,
                 Keras.shape_of batch_size t
                 = Some (shape4 (dim_ordering_ w) batch_size c h v))
         (encoder_stages F ++ decoder_stages F).
Proof.
  destruct w as [K2 o so ls]. cbn [dim_ordering_]. intros Ho _ _ _ _.
  eexists _, _. split; [apply run_g_unet_frame; exact Ho|].
  split; [apply run_g_unet; exact Ho|].
  split; [apply predict_shape_frame; exact Ho|].
  split; [apply connected_frame|].
  split;
    [exact (root_frame K2 o in_ch out_ch nf batch_size is_binary num_padded_conv name)|].
  split; [exact (shape_Placeholder o batch_size Ho in_ch)|].
  split;
    [exact (summary_frame K2 o batch_size Ho in_ch out_ch nf batch_size is_binary
              num_padded_conv name)|].
  split; [apply stages_on_path_frame|].
  destruct (frame_shapes K2 o batch_size Ho in_ch out_ch nf batch_size is_binary
              num_padded_conv name) as (_ & HE & HD & _).
  apply Forall_app. split.
  - unfold encoder_stages in *. cbn [map] in HE.
    injection HE as E1 E2 E3 E4 E5 E6 E7 E8 E9.
    repeat (constructor; [eauto|]). constructor.
  - unfold decoder_stages in *. cbn [map] in HD.
    injection HD as E1 E2 E3 E4 E5 E6 E7 E8 E9.
    repeat (constructor; [eauto|]). constructor.
Qed.

Lemma g_unet_output_shape_witness :
  exists F w',
    g_unet_frame 3 1 4 2 false 1 "unet" (mkWorld true "th" [] []) = (Ok F, w')
    /\ g_unet 3 1 4 2 false 1 "unet" (mkWorld true "th" [] []) = (Ok (unet F), w')
    /\ Keras.predict_shape (unet F) (shape4 "th" 2 3 512 512)
       = Some (shape4 "th" 2 1 512 512)
    /\ Keras.connected (unet F) = true
    /\ root (model_output (unet F)) = model_input (unet F)
    /\ Keras.shape_of 2 (model_input (unet F)) = Some (shape4 "th" 2 3 512 512)
    /\ map (transform_summary "th" 2) (transforms (model_output (unet F)))
       = (let sh := shape4 "th" 2 in
          [(false, Some (512, 512), Some (sh 4 256 256));
           (false, Some (256, 256), Some (sh (4 * 2) 128 128));
           (false, Some (128, 128), Some (sh (4 * 4) 64 64));
           (false, Some (64, 64), Some (sh (4 * 8) 32 32));
           (false, Some (32, 32), Some (sh (4 * 8) 16 16));
           (false, Some (16, 16), Some (sh (4 * 8) 8 8));
           (false, Some (8, 8), Some (sh (4 * 8) 4 4));
           (false, Some (4, 4), Some (sh (4 * 8) 2 2));
           (false, Some (2, 2), Some (sh (4 * 8) 1 1));
           (true, Some (1, 1), Some (sh (4 * 8) 2 2));
           (true, Some (2, 2), Some (sh (4 * 8) 4 4));
           (true, Some (4, 4), Some (sh (4 * 8) 8 8));
           (true, Some (8, 8), Some (sh (4 * 8) 16 16));
           (true, Some (16, 16), Some (sh (4 * 8) 32 32));
           (true, Some (32, 32), Some (sh (4 * 4) 64 64));
           (true, Some (64, 64), Some (sh (4 * 2) 128 128));
           (true, Some (128, 128), Some (sh 4 256 256));
           (true, Some (256, 256), Some (sh 1 512 512))])
    /\ stages_on_path F
    /\ Forall (fun t => exists c h v,
                 Keras.shape_of 2 t = Some (shape4 "th" 2 c h v))
         (encoder_stages F ++ decoder_stages F).
Proof.
  apply (g_unet_output_shape (mkWorld true "th" [] []) 3 1 4 2 false 1 "unet");
    [left; reflexivity | lia | lia | lia | lia].
Defined.

(** C5. In the graph [g_unet] builds, the main path from the input to the
    output carries 18 stage transforms.  The first 9 are convolutions, and
    each gives a tensor half the size of the one it reads: 512 to 256, 128,
    64, 32, 16, 8, 4, 2 and, through a convolution of kernel 2, stride 1
    and padding ['valid'] on the 2 by 2 [conv8], 1.  The last 9 are
    upsampling layers, and each gives a tensor twice the size of the one it
    reads: 1 to 2, 4, 8, 16, 32, 64, 128, 256 and 512.  The encoder and
    decoder tensors of the frame sit on this path and have these sizes,
    and so has the output. *)
Theorem spatial_halves_then_doubles (w : world) (b in_ch out_ch nf batch_size : Z)
  (is_binary : bool) (num_padded_conv : Z) (name : string) :
  supported (dim_ordering_ w) ->
  exists F w',
    g_unet_frame in_ch out_ch nf batch_size is_binary num_padded_conv name w = (Ok F, w')
    /\ g_unet in_ch out_ch nf batch_size is_binary num_padded_conv name w
       = (Ok (unet F), w')
    /\ map (fun tr => summary_sizes (dim_ordering_ w)
                        (transform_summary (dim_ordering_ w) b tr))
         (transforms (model_output (unet F)))
       = [(false, Some (512, 512), Some (256, 256));
          (false, Some (256, 256), Some (128, 128));
          (false, Some (128, 128), Some (64, 64));
          (false, Some (64, 64), Some (32, 32));
          (false, Some (32, 32), Some (16, 16));
          (false, Some (16, 16), Some (8, 8));
          (false, Some (8, 8), Some (4, 4));
          (false, Some (4, 4), Some (2, 2));
          (false, Some (2, 2), Some (1, 1));
          (true, Some (1, 1), Some (2, 2));
          (true, Some (2, 2), Some (4, 4));
          (true, Some (4, 4), Some (8, 8));
          (true, Some (8, 8), Some (16, 16));
          (true, Some (16, 16), Some (32, 32));
          (true, Some (32, 32), Some (64, 64));
          (true, Some (64, 64), Some (128, 128));
          (true, Some (128, 128), Some (256, 256));
          (true, Some (256, 256), Some (512, 512))]
    /\ stages_on_path F
    /\ spatial_of (dim_ordering_ w) b (i F) = Some (512, 512)
    /\ map (spatial_of (dim_ordering_ w) b) (encoder_stages F)
       = map Some [(256, 256); (128, 128); (64, 64); (32, 32); (16, 16); (8, 8);
                   (4, 4); (2, 2); (1, 1)]
    /\ (exists m fmt,
          conv9 F = Call (BatchNormalization m 1)
                      [Call (Convolution2D (nf * 8) (2, 2) valid (1, 1) fmt) [conv8 F]])
    /\ map (spatial_of (dim_ordering_ w) b) (decoder_stages F)
       = map Some [(2, 2); (4, 4); (8, 8); (16, 16); (32, 32); (64, 64);
                   (128, 128); (256, 256); (512, 512)]
    /\ spatial_of (dim_ordering_ w) b (out F) = Some (512, 512).
Proof.
  destruct w as [K2 o so ls]. cbn [dim_ordering_]. intros Ho.
  eexists _, _. split; [apply run_g_unet_frame; exact Ho|].
  split; [apply run_g_unet; exact Ho|].
  split.
  { rewrite <- (map_map (transform_summary o b) (summary_sizes o)).
    change (model_output (unet ?f)) with (out f).
    rewrite (summary_frame K2 o b Ho). cbn [map summary_sizes].
    rewrite !(spatial_shape4 o b _ _ _ Ho). reflexivity. }
  split; [apply stages_on_path_frame|].
  destruct (frame_shapes K2 o b Ho in_ch out_ch nf batch_size is_binary
              num_padded_conv name) as (HI & HE & HD & HO).
  destruct (shapes_read o b (encoder_stages
              (frame_of K2 o in_ch out_ch nf batch_size is_binary num_padded_conv name))
              [(nf, 256, 256); (nf * 2, 128, 128); (nf * 4, 64, 64); (nf * 8, 32, 32);
               (nf * 8, 16, 16); (nf * 8, 8, 8); (nf * 8, 4, 4); (nf * 8, 2, 2);
               (nf * 8, 1, 1)] Ho HE) as [SE _].
  destruct (shapes_read o b (decoder_stages
              (frame_of K2 o in_ch out_ch nf batch_size is_binary num_padded_conv name))
              [(nf * 8, 2, 2); (nf * 8, 4, 4); (nf * 8, 8, 8); (nf * 8, 16, 16);
               (nf * 8, 32, 32); (nf * 4, 64, 64); (nf * 2, 128, 128); (nf, 256, 256);
               (out_ch, 512, 512)] Ho HD) as [SD _].
  rewrite (spatial_of_shape _ _ _ _ _ _ Ho HI), (spatial_of_shape _ _ _ _ _ _ Ho HO).
  rewrite SE, SD.
  repeat split.
  exists (if K2 then None else Some 2), (layout K2 o). reflexivity.
Qed.

Lemma spatial_halves_then_doubles_witness :
  exists F w',
    g_unet_frame 3 1 4 2 false 0 "unet" (mkWorld false "tf" [] []) = (Ok F, w')
    /\ g_unet 3 1 4 2 false 0 "unet" (mkWorld false "tf" [] []) = (Ok (unet F), w')
    /\ map (fun tr => summary_sizes "tf" (transform_summary "tf" 2 tr))
         (transforms (model_output (unet F)))
       = [(false, Some (512, 512), Some (256, 256));
          (false, Some (256, 256), Some (128, 128));
          (false, Some (128, 128), Some (64, 64));
          (false, Some (64, 64), Some (32, 32));
          (false, Some (32, 32), Some (16, 16));
          (false, Some (16, 16), Some (8, 8));
          (false, Some (8, 8), Some (4, 4));
          (false, Some (4, 4), Some (2, 2));
          (false, Some (2, 2), Some (1, 1));
          (true, Some (1, 1), Some (2, 2));
          (true, Some (2, 2), Some (4, 4));
          (true, Some (4, 4), Some (8, 8));
          (true, Some (8, 8), Some (16, 16));
          (true, Some (16, 16), Some (32, 32));
          (true, Some (32, 32), Some (64, 64));
          (true, Some (64, 64), Some (128, 128));
          (true, Some (128, 128), Some (256, 256));
          (true, Some (256, 256), Some (512, 512))]
    /\ stages_on_path F
    /\ spatial_of "tf" 2 (i F) = Some (512, 512)
    /\ map (spatial_of "tf" 2) (encoder_stages F)
       = map Some [(256, 256); (128, 128); (64, 64); (32, 32); (16, 16); (8, 8);
                   (4, 4); (2, 2); (1, 1)]
    /\ (exists m fmt,
          conv9 F = Call (BatchNormalization m 1)
                      [Call (Convolution2D (4 * 8) (2, 2) valid (1, 1) fmt) [conv8 F]])
    /\ map (spatial_of "tf" 2) (decoder_stages F)
       = map Some [(2, 2); (4, 4); (8, 8); (16, 16); (32, 32); (64, 64);
                   (128, 128); (256, 256); (512, 512)]
    /\ spatial_of "tf" 2 (out F) = Some (512, 512).
Proof.
  apply (spatial_halves_then_doubles (mkWorld false "tf" [] []) 2 3 1 4 2 false 0 "unet").
  right; reflexivity.
Defined.

(** C6. For positive [nf], the 9 convolutions on the main path of the
    graph give tensors of [nf] times 1, 2, 4, 8, 8, 8, 8, 8 channels, and 8
    again at the bottleneck; the 9 upsampling layers that follow give
    tensors of [nf] times the same schedule reversed, and last of [out_ch]
    channels.  The encoder tensors [conv1] to [conv9] and the decoder
    tensors [dconv1] to [dconv9] of the frame, which sit on this path, have
    these channel counts, the decoder ones before their concatenation. *)
Theorem channel_schedule (w : world) (b in_ch out_ch nf batch_size : Z)
  (is_binary : bool) (num_padded_conv : Z) (name : string) :
  supported (dim_ordering_ w) ->
  0 < nf ->
  exists F w',
    g_unet_frame in_ch out_ch nf batch_size is_binary num_padded_conv name w = (Ok F, w')
    /\ g_unet in_ch out_ch nf batch_size is_binary num_padded_conv name w
       = (Ok (unet F), w')
    /\ map (fun tr => summary_channels (dim_ordering_ w)
                        (transform_summary (dim_ordering_ w) b tr))
         (transforms (model_output (unet F)))
       = (map (fun m => (false, Some (nf * m))) (schedule ++ [8])
            ++ map (fun m => (true, Some (nf * m))) (rev schedule)
            ++ [(true, Some out_ch)])%list
    /\ stages_on_path F
    /\ map (channels_of (dim_ordering_ w) b) (encoder_stages F)
       = map (fun m => Some (nf * m)) (schedule ++ [8])
    /\ map (channels_of (dim_ordering_ w) b) (decoder_stages F)
       = (map (fun m => Some (nf * m)) (rev schedule) ++ [Some out_ch])%list.
Proof.
  destruct w as [K2 o so ls]. cbn [dim_ordering_]. intros Ho _.
  eexists _, _. split; [apply run_g_unet_frame; exact Ho|].
  split; [apply run_g_unet; exact Ho|].
  split.
  { rewrite <- (map_map (transform_summary o b) (summary_channels o)).
    change (model_output (unet ?f)) with (out f).
    rewrite (summary_frame K2 o b Ho). cbn [map summary_channels].
    rewrite !(channels_shape4 o b _ _ _ Ho).
    unfold schedule. cbn [map rev app]. rewrite Z.mul_1_r. reflexivity. }
  split; [apply stages_on_path_frame|].
  destruct (frame_shapes K2 o b Ho in_ch out_ch nf batch_size is_binary
              num_padded_conv name) as (_ & HE & HD & _).
  destruct (shapes_read o b (encoder_stages
              (frame_of K2 o in_ch out_ch nf batch_size is_binary num_padded_conv name))
              [(nf, 256, 256); (nf * 2, 128, 128); (nf * 4, 64, 64); (nf * 8, 32, 32);
               (nf * 8, 16, 16); (nf * 8, 8, 8); (nf * 8, 4, 4); (nf * 8, 2, 2);
               (nf * 8, 1, 1)] Ho HE) as [_ CE].
  destruct (shapes_read o b (decoder_stages
              (frame_of K2 o in_ch out_ch nf batch_size is_binary num_padded_conv name))
              [(nf * 8, 2, 2); (nf * 8, 4, 4); (nf * 8, 8, 8); (nf * 8, 16, 16);
               (nf * 8, 32, 32); (nf * 4, 64, 64); (nf * 2, 128, 128); (nf, 256, 256);
               (out_ch, 512, 512)] Ho HD) as [_ CD].
  rewrite CE, CD. unfold schedule. cbn [map rev app fst snd].
  rewrite Z.mul_1_r. split; reflexivity.
Qed.

Lemma channel_schedule_witness :
  exists F w',
    g_unet_frame 3 1 4 2 false 2 "unet" (mkWorld true "th" [] []) = (Ok F, w')
    /\ g_unet 3 1 4 2 false 2 "unet" (mkWorld true "th" [] []) = (Ok (unet F), w')
    /\ map (fun tr => summary_channels "th" (transform_summary "th" 2 tr))
         (transforms (model_output (unet F)))
       = (map (fun m => (false, Some (4 * m))) (schedule ++ [8])
            ++ map (fun m => (true, Some (4 * m))) (rev schedule)
            ++ [(true, Some 1)])%list
    /\ stages_on_path F
    /\ map (channels_of "th" 2) (encoder_stages F)
       = map (fun m => Some (4 * m)) (schedule ++ [8])
    /\ map (channels_of "th" 2) (decoder_stages F)
       = (map (fun m => Some (4 * m)) (rev schedule) ++ [Some 1])%list.
Proof.
  apply (channel_schedule (mkWorld true "th" [] []) 2 3 1 4 2 false 2 "unet");
    [left; reflexivity | lia].
Defined.

(** C2, as written, fails in two ways.  At [num_padded_conv] 0 and 1: the
    ninth encoder stage and the ninth decoder stage carry no refinement
    block in either graph, so the blocks of the 18 stages do not all grow
    by one.  At [num_padded_conv] -1 and [k = 1]: the two graphs carry the
    same blocks, none, so that nothing is added at all. *)
Lemma refinement_in_all_18_stages_counterexample :
  (exists F0 F1,
      frame_at (mkWorld true "th" [] []) 3 1 4 2 false 0 "unet" = Some F0
      /\ frame_at (mkWorld true "th" [] []) 3 1 4 2 false 1 "unet" = Some F1
      /\ nth_error (stage_blocks F0) 8 = Some (Some O)
      /\ nth_error (stage_blocks F1) 8 = Some (Some O)
      /\ nth_error (stage_blocks F0) 17 = Some (Some O)
      /\ nth_error (stage_blocks F1) 17 = Some (Some O)
      /\ nth_error (blocks_after (out F1) O) 8 = Some O
      /\ nth_error (blocks_after (out F1) O) 17 = Some O
      /\ stage_blocks F1 <> map (option_map (fun c => (c + 1)%nat)) (stage_blocks F0))
  /\ (exists Fa Fb,
        frame_at (mkWorld true "th" [] []) 3 1 4 2 false (-1) "unet" = Some Fa
        /\ frame_at (mkWorld true "th" [] []) 3 1 4 2 false (-1 + 1) "unet" = Some Fb
        /\ stage_blocks Fb = stage_blocks Fa
        /\ stage_blocks Fb <> map (option_map (fun c => (c + 1)%nat)) (stage_blocks Fa)).
Proof.
  split.
  - eexists _, _.
    split; [vm_compute; reflexivity|].
    split; [vm_compute; reflexivity|].
    repeat split; try (vm_compute; reflexivity).
    vm_compute. discriminate.
  - eexists _, _.
    split; [vm_compute; reflexivity|].
    split; [vm_compute; reflexivity|].
    split; [vm_compute; reflexivity|].
    vm_compute. discriminate.
Qed.

(** C2, amended. For nonnegative [num_padded_conv] and nonnegative [k],
    the graph built with [num_padded_conv + k] carries
    [num_padded_conv + k] refinement blocks on each of the encoder stages 1
    to 8 and the decoder stages 1 to 8, against [num_padded_conv] before:
    [k] more on each.  The ninth encoder stage and the ninth decoder stage
    carry none in either graph.  This is read twice: on the stage tensors
    of the frame, and on the main path of the returned model, after each
    of its 18 stage transforms.  The call creates [16 * k] more
    resolution-keeping convolutions, each of which gives back the height
    and width it is given, and the shape of the model's output is
    unchanged. *)
Theorem refinement_blocks_added (w : world) (b in_ch out_ch nf batch_size : Z)
  (is_binary : bool) (num_padded_conv k : Z) (name : string) :
  supported (dim_ordering_ w) ->
  0 <= num_padded_conv -> 0 <= k ->
  exists F0 w0 Fk wk,
    g_unet_frame in_ch out_ch nf batch_size is_binary num_padded_conv name w
    = (Ok F0, w0)
    /\ g_unet_frame in_ch out_ch nf batch_size is_binary (num_padded_conv + k) name w
       = (Ok Fk, wk)
    /\ g_unet in_ch out_ch nf batch_size is_binary num_padded_conv name w
       = (Ok (unet F0), w0)
    /\ g_unet in_ch out_ch nf batch_size is_binary (num_padded_conv + k) name w
       = (Ok (unet Fk), wk)
    /\ stage_blocks F0
       = map Some (repeat (Z.to_nat num_padded_conv) 8 ++ [O]
                     ++ repeat (Z.to_nat num_padded_conv) 8 ++ [O])%list
    /\ stage_blocks Fk
       = map Some (repeat (Z.to_nat num_padded_conv + Z.to_nat k)%nat 8 ++ [O]
                     ++ repeat (Z.to_nat num_padded_conv + Z.to_nat k)%nat 8 ++ [O])%list
    /\ blocks_after (model_output (unet F0)) O
       = (repeat (Z.to_nat num_padded_conv) 8 ++ [O]
            ++ repeat (Z.to_nat num_padded_conv) 8 ++ [O])%list
    /\ blocks_after (model_output (unet Fk)) O
       = (repeat (Z.to_nat num_padded_conv + Z.to_nat k)%nat 8 ++ [O]
            ++ repeat (Z.to_nat num_padded_conv + Z.to_nat k)%nat 8 ++ [O])%list
    /\ stages_on_path F0
    /\ stages_on_path Fk
    /\ count_layers is_refinement_conv (layers wk)
       = (count_layers is_refinement_conv (layers w0) + 16 * Z.to_nat k)%nat
    /\ (forall c d1 d2 d3 s,
          is_refinement_conv c = true ->
          Keras.compute_output_shape c [[b; d1; d2; d3]] = Some s ->
          (exists f, s = [b; f; d2; d3]) \/ (exists f, s = [b; d1; d2; f]))
    /\ Keras.predict_shape (unet Fk) (shape4 (dim_ordering_ w) b in_ch 512 512)
       = Keras.predict_shape (unet F0) (shape4 (dim_ordering_ w) b in_ch 512 512)
    /\ Keras.predict_shape (unet F0) (shape4 (dim_ordering_ w) b in_ch 512 512)
       = Some (shape4 (dim_ordering_ w) b out_ch 512 512).
Proof.
  destruct w as [K2 o so ls]. cbn [dim_ordering_]. intros Ho Hn Hk.
  eexists _, _, _, _.
  split; [apply run_g_unet_frame; exact Ho|].
  split; [apply run_g_unet_frame; exact Ho|].
  split; [apply run_g_unet; exact Ho|].
  split; [apply run_g_unet; exact Ho|].
  split; [apply stage_blocks_frame|].
  split; [rewrite stage_blocks_frame, Z2Nat.inj_add by lia; reflexivity|].
  split;
    [exact (blocks_after_frame K2 o in_ch out_ch nf batch_size is_binary
              num_padded_conv name)|].
  split.
  { change (model_output (unet ?f)) with (out f).
    rewrite blocks_after_frame, Z2Nat.inj_add by lia. reflexivity. }
  split; [apply stages_on_path_frame|].
  split; [apply stages_on_path_frame|].
  split.
  { cbn [layers]. unfold layers_of.
    rewrite !count_layers_app, !count_refinement_body, Z2Nat.inj_add by lia.
    cbn [count_layers filter is_refinement_conv List.length]. lia. }
  split; [intros c d1 d2 d3 s; apply refinement_conv_keeps_size|].
  rewrite !(predict_shape_frame K2 o b Ho). split; reflexivity.
Qed.

Lemma refinement_blocks_added_witness :
  exists F0 w0 Fk wk,
    g_unet_frame 3 1 4 2 false 1 "unet" (mkWorld true "th" [] []) = (Ok F0, w0)
    /\ g_unet_frame 3 1 4 2 false (1 + 2) "unet" (mkWorld true "th" [] []) = (Ok Fk, wk)
    /\ g_unet 3 1 4 2 false 1 "unet" (mkWorld true "th" [] []) = (Ok (unet F0), w0)
    /\ g_unet 3 1 4 2 false (1 + 2) "unet" (mkWorld true "th" [] []) = (Ok (unet Fk), wk)
    /\ stage_blocks F0
       = map Some (repeat (Z.to_nat 1) 8 ++ [O] ++ repeat (Z.to_nat 1) 8 ++ [O])%list
    /\ stage_blocks Fk
       = map Some (repeat (Z.to_nat 1 + Z.to_nat 2)%nat 8 ++ [O]
                     ++ repeat (Z.to_nat 1 + Z.to_nat 2)%nat 8 ++ [O])%list
    /\ blocks_after (model_output (unet F0)) O
       = (repeat (Z.to_nat 1) 8 ++ [O] ++ repeat (Z.to_nat 1) 8 ++ [O])%list
    /\ blocks_after (model_output (unet Fk)) O
       = (repeat (Z.to_nat 1 + Z.to_nat 2)%nat 8 ++ [O]
            ++ repeat (Z.to_nat 1 + Z.to_nat 2)%nat 8 ++ [O])%list
    /\ stages_on_path F0
    /\ stages_on_path Fk
    /\ count_layers is_refinement_conv (layers wk)
       = (count_layers is_refinement_conv (layers w0) + 16 * Z.to_nat 2)%nat
    /\ (forall c d1 d2 d3 s,
          is_refinement_conv c = true ->
          Keras.compute_output_shape c [[5; d1; d2; d3]] = Some s ->
          (exists f, s = [5; f; d2; d3]) \/ (exists f, s = [5; d1; d2; f]))
    /\ Keras.predict_shape (unet Fk) (shape4 "th" 5 3 512 512)
       = Keras.predict_shape (unet F0) (shape4 "th" 5 3 512 512)
    /\ Keras.predict_shape (unet F0) (shape4 "th" 5 3 512 512)
       = Some (shape4 "th" 5 1 512 512).
Proof.
  apply (refinement_blocks_added (mkWorld true "th" [] []) 5 3 1 4 2 false 1 2 "unet");
    [left; reflexivity | lia | lia].
Defined.

(** ** Further properties, on the outcome and the wiring *)



Section SkipInputs.

Variables (K2 : bool) (o : string).

Lemma skip_input_up dr f os k s n f' d c :
  skip_input (up K2 o dr f os k s (skip K2 o n f' d c)) = Some c.
Proof. unfold skip_input. now rewrite merge_below_up, merge_below_skip. Qed.

Lemma skip_input_deconv f os k s n f' d c :
  skip_input (Call (deconv_layer K2 o f os k s) [skip K2 o n f' d c]) = Some c.
Proof. unfold skip_input. now rewrite merge_below_deconv, merge_below_skip. Qed.

End SkipInputs.

(** X12. The encoder is a chain and the skip links tap it: [conv1] reads the
    input placeholder, each of [conv2] to [conv8] reads the tensor before
    it, refinement blocks included, [conv9] reads [conv8], and the
    upsampling layer of [dconv1] reads the leaky ReLU of [conv9].  The
    second input of the concatenation below each of [dconv2] to [dconv9]
    is [conv8] down to [conv1]: the very tensor the next encoder stage
    reads. *)
Theorem encoder_chain (w : world) (in_ch out_ch nf batch_size : Z)
  (is_binary : bool) (num_padded_conv : Z) (name : string) :
  supported (dim_ordering_ w) ->
  exists F w',
    g_unet_frame in_ch out_ch nf batch_size is_binary num_padded_conv name w = (Ok F, w')
    /\ i F = model_input (unet F)
    /\ map stage_source (firstn 8 (encoder_stages F))
       = map Some (i F :: firstn 7 (encoder_stages F))
    /\ (exists l n, conv9 F = Call n [Call l [conv8 F]]
                    /\ is_convolution l = true /\ is_batch_norm n = true)
    /\ upsample_input (dconv1 F) = Some (Call (LeakyReLU 0.2) [conv9 F])
    /\ map skip_input (skip_consumers F)
       = map Some (rev (firstn 8 (encoder_stages F)))
    /\ map skip_input (skip_consumers F)
       = Some (conv8 F)
         :: rev (map stage_source (skipn 1 (firstn 8 (encoder_stages F)))).
Proof.
  destruct w as [K2 o so ls]. cbn [dim_ordering_]. intros Ho.
  eexists _, _. split; [apply run_g_unet_frame; exact Ho|].
  split; [reflexivity|].
  assert (S : map stage_source
                (firstn 8 (encoder_stages
                   (frame_of K2 o in_ch out_ch nf batch_size is_binary
                      num_padded_conv name)))
              = map Some
                  (i (frame_of K2 o in_ch out_ch nf batch_size is_binary
                        num_padded_conv name)
                   :: firstn 7 (encoder_stages
                        (frame_of K2 o in_ch out_ch nf batch_size is_binary
                           num_padded_conv name)))).
  { unfold encoder_stages, frame_of.
    cbn [map firstn i conv1 conv2 conv3 conv4 conv5 conv6 conv7 conv8].
    rewrite !stage_source_down. reflexivity. }
  assert (K : map skip_input
                (skip_consumers
                   (frame_of K2 o in_ch out_ch nf batch_size is_binary
                      num_padded_conv name))
              = map Some
                  (rev (firstn 8 (encoder_stages
                          (frame_of K2 o in_ch out_ch nf batch_size is_binary
                             num_padded_conv name))))).
  { unfold skip_consumers, decoder_stages, encoder_stages, frame_of.
    cbn [map skipn firstn rev app
           conv1 conv2 conv3 conv4 conv5 conv6 conv7 conv8
           dconv2 dconv3 dconv4 dconv5 dconv6 dconv7 dconv8 dconv9].
    rewrite !skip_input_up, skip_input_deconv. reflexivity. }
  split; [exact S|].
  split; [eexists _, _; repeat split|].
  split; [unfold frame_of; cbn [dconv1 conv9]; now rewrite upsample_input_up|].
  split; [exact K|].
  unfold skip_consumers, decoder_stages, encoder_stages, frame_of.
  cbn [map skipn firstn rev app
         conv1 conv2 conv3 conv4 conv5 conv6 conv7 conv8
         dconv2 dconv3 dconv4 dconv5 dconv6 dconv7 dconv8 dconv9].
  rewrite !skip_input_up, skip_input_deconv, !stage_source_down. reflexivity.
Qed.

Lemma encoder_chain_witness :
  exists F w',
    g_unet_frame 3 1 4 2 false 1 "unet" (mkWorld true "th" [] []) = (Ok F, w')
    /\ i F = model_input (unet F)
    /\ map stage_source (firstn 8 (encoder_stages F))
       = map Some (i F :: firstn 7 (encoder_stages F))
    /\ (exists l n, conv9 F = Call n [Call l [conv8 F]]
                    /\ is_convolution l = true /\ is_batch_norm n = true)
    /\ upsample_input (dconv1 F) = Some (Call (LeakyReLU 0.2) [conv9 F])
    /\ map skip_input (skip_consumers F)
       = map Some (rev (firstn 8 (encoder_stages F)))
    /\ map skip_input (skip_consumers F)
       = Some (conv8 F)
         :: rev (map stage_source (skipn 1 (firstn 8 (encoder_stages F)))).
Proof.
  apply (encoder_chain (mkWorld true "th" [] []) 3 1 4 2 false 1 "unet").
  left; reflexivity.
Defined.

(** X14. Under Keras 2, [concatenate_layers] with a mode other than
    ['concat'] fails on its assertion, with the message of the source,
    before any layer is created: the state is untouched. *)
Theorem concatenate_layers_other_mode (w : world) (inputs : list tensor)
  (concat_axis : Z) (mode : string) :
  KERAS_2 w = true ->
  mode <> "concat" ->
  concatenate_layers inputs concat_axis mode w
  = (Raise (AssertionError "Only concatenation is supported in this wrapper"), w).
Proof.
  intros HK Hm. apply String.eqb_neq in Hm.
  destruct w as [K2 o so ls]. cbn [KERAS_2] in HK. subst K2.
  unfold concatenate_layers, bind, get_KERAS_2. cbn [KERAS_2].
  rewrite Hm. reflexivity.
Qed.

Lemma concatenate_layers_other_mode_witness :
  concatenate_layers [Placeholder [3; 8; 8]; Placeholder [5; 8; 8]] 1 "sum"
    (mkWorld true "th" [] [])
  = (Raise (AssertionError "Only concatenation is supported in this wrapper"),
     mkWorld true "th" [] []).
Proof.
  apply (concatenate_layers_other_mode (mkWorld true "th" [] [])
           [Placeholder [3; 8; 8]; Placeholder [5; 8; 8]] 1 "sum");
    [reflexivity | discriminate].
Defined.
